(** * gammapy.utils.modeling: XML model serialisation

A shallow embedding of [gammapy/utils/modeling.py]: the classes
[Parameter], [ParameterList], [SourceLibrary], [SourceModel],
[SpectralModel] and [SpatialModel] with their three concrete variants
each.  Python exceptions become the [Err] branch of a result type,
attribute mutation becomes a function returning the updated record, and
the libraries the module calls into (Python's text conversions, astropy
units, uncertainties, xmltodict) are interfaces the development is
parameterised over.

The source file carries the markers of an unfinished merge.  None of them
lies inside a function modelled here; of the import block the [HEAD] side
is taken, which has the [import numpy as np] that [set_parameter_errors]
needs. *)

From Stdlib Require Import List String Ascii ZArith Bool Lia DecimalString.
From Stdlib Require Import PrimFloat SpecFloat FloatOps.
Import ListNotations.
Open Scope list_scope.
Open Scope string_scope.

Set Implicit Arguments.
Set Warnings "-register-all,-inexact-float".

(** ** Exceptions and results *)

(** The exceptions the module raises itself or lets through.
    [UnknownModelError] is the module's own class; the others are Python's
    or the libraries'. *)
Inductive pyerr : Type :=
| KeyError (key : string)
| TypeError
| AttributeError
| ValueError (msg : string)
| IndexError (msg : string)
| ZeroDivisionError
| OverflowError
| UnitConversionError
| LinAlgError
| NoDataAvailableError
| UnknownModelError (msg : string)
| OtherError (msg : string).

Inductive result (A : Type) : Type :=
| Ok (a : A)
| Err (e : pyerr).

Arguments Ok {A} a.
Arguments Err {A} e.

Definition bind {A B} (r : result A) (k : A -> result B) : result B :=
  match r with
  | Ok a => k a
  | Err e => Err e
  end.

Notation "x <- r ;; k" := (bind r (fun x => k))
  (at level 61, r at next level, right associativity).

(** A list comprehension whose body may raise: the first exception ends
    it. *)
Fixpoint mapM {A B} (f : A -> result B) (l : list A) : result (list B) :=
  match l with
  | [] => Ok []
  | a :: l' => b <- f a ;; bs <- mapM f l' ;; Ok (b :: bs)
  end.

(** ** Numbers *)

(** A parameter value is a Python [float] (IEEE binary64) or, where the
    code writes an integer literal, a Python [int]. *)
Inductive pynum : Type :=
| PyInt (z : Z)
| PyFloat (f : float).

Definition Z2SF (z : Z) : spec_float := binary_normalize prec emax z 0 false.

(** [float(n)] for an [int]: correctly rounded, [OverflowError] beyond the
    binary64 range. *)
Definition float_of_int (z : Z) : result float :=
  let f := SF2Prim (Z2SF z) in
  if is_infinity f then Err OverflowError else Ok f.

(** Unary minus, [-v]. *)
Definition py_neg (v : pynum) : pynum :=
  match v with
  | PyInt z => PyInt (- z)
  | PyFloat f => PyFloat (- f)
  end.

(** [1 / v] with the true division of Python 3: a float divisor that
    compares equal to zero (either sign) and the integer zero raise
    [ZeroDivisionError]; int by int is the exact quotient rounded once. *)
Definition py_inv (v : pynum) : result pynum :=
  match v with
  | PyFloat f => if (f =? 0)%float then Err ZeroDivisionError
                 else Ok (PyFloat (1 / f))
  | PyInt z =>
      if (z =? 0)%Z then Err ZeroDivisionError
      else
        let divisor := S754_finite (z <? 0)%Z (Z.to_pos (Z.abs z)) 0 in
        Ok (PyFloat (SF2Prim (SFdiv prec emax (S754_finite false 1 0) divisor)))
  end.

(** A numpy matrix, by rows. *)
Definition matrix : Type := list (list float).

(** An astropy [Quantity]: a float with a unit.  Units are identified by
    the string astropy reads them from or prints them as. *)
Record Quantity : Type := mkQuantity { qvalue : float; qunit : string }.

(** ** Dictionaries *)

(** A [dict] with string keys, in insertion order; a lookup finds the first
    entry of the key. *)
Definition dict (V : Type) : Type := list (string * V).

Fixpoint dict_get {V} (k : string) (d : dict V) : option V :=
  match d with
  | [] => None
  | (k', v) :: d' => if String.eqb k k' then Some v else dict_get k d'
  end.

(** [d.get(k, default)] *)
Definition dict_get_default {V} (k : string) (default : V) (d : dict V) : V :=
  match dict_get k d with
  | Some v => v
  | None => default
  end.

(** [k in d] *)
Definition dict_mem {V} (k : string) (d : dict V) : bool :=
  match dict_get k d with
  | Some _ => true
  | None => false
  end.

(** [d[k] = v]: an existing key keeps its place, a new one goes last. *)
Fixpoint dict_set {V} (k : string) (v : V) (d : dict V) : dict V :=
  match d with
  | [] => [(k, v)]
  | (k', v') :: d' =>
      if String.eqb k k' then (k', v) :: d' else (k', v') :: dict_set k v d'
  end.

(** ** The dictionaries xmltodict produces

    An XML element becomes a dict in which attribute [a] is stored under
    the key ['@a'] with a string value and each child tag under its own
    name; repeated children become a list.  [XDict attrs children] keeps
    the two kinds of key apart: [attrs] holds the attribute names without
    their ['@'], [children] the tags.  So [data['@name']] reads [attrs]
    and [data['spectrum']] reads [children]. *)
Inductive xval : Type :=
| XNone
| XStr (s : string)
| XList (l : list xval)
| XDict (attrs : dict string) (children : dict xval).

(** [data['@a']]: a missing key is a [KeyError], subscripting a [str], a
    [list] or [None] with a string is a [TypeError]. *)
Definition xattr (a : string) (data : xval) : result string :=
  match data with
  | XDict attrs _ =>
      match dict_get a attrs with
      | Some s => Ok s
      | None => Err (KeyError ("@" ++ a))
      end
  | _ => Err TypeError
  end.

(** [data[tag]] *)
Definition xchild (tag : string) (data : xval) : result xval :=
  match data with
  | XDict _ children =>
      match dict_get tag children with
      | Some v => Ok v
      | None => Err (KeyError tag)
      end
  | _ => Err TypeError
  end.

(** The characters of a string, each a string of length one. *)
Fixpoint chars (s : string) : list string :=
  match s with
  | EmptyString => []
  | String c s' => String c EmptyString :: chars s'
  end.

(** [for x in data]: a list yields its elements, a dict its keys, a
    string its characters; [None] is not iterable. *)
Definition py_iter (data : xval) : result (list xval) :=
  match data with
  | XList l => Ok l
  | XDict attrs children =>
      Ok (map (fun kv => XStr ("@" ++ fst kv)) attrs
          ++ map (fun kv => XStr (fst kv)) children)%list
  | XStr s => Ok (map XStr (chars s))
  | XNone => Err TypeError
  end.

(** ** The libraries the module calls *)

(** Python's own conversions between text and values. *)
Class PyText : Type := {
  (** [float(s)] on a string; [None] is Python's [ValueError]. *)
  float_of_str : string -> option float;
  (** [str(f)], which is what ['{}'.format(f)] inserts. *)
  str_of_float : float -> string;
  (** [repr(f)], which is what ['{!r}'.format(f)] inserts. *)
  repr_of_float : float -> string;
  (** [repr(s)] of a string: quoted and escaped. *)
  repr_of_str : string -> string;
  (** [str] of a numpy array. *)
  str_of_matrix : matrix -> string;
  (** [str] of a dict xmltodict built. *)
  str_of_xval : xval -> string
}.

(** astropy.units *)
Class Astropy : Type := {
  (** [u.Unit(s)]: the unit, or the exception for a string that names
      none. *)
  Unit : string -> result string;
  (** [q.to(unit)]: [UnitConversionError] between incompatible units. *)
  quantity_to : Quantity -> string -> result Quantity
}.

(** uncertainties *)
Class Uncertainties : Type := {
  (** A number with an uncertainty. *)
  ufloat : Type;
  (** [correlated_values(nom_values, covariance_mat)] *)
  correlated_values : list pynum -> option matrix -> result (list ufloat)
}.

(** xmltodict, which the repository carries under [gammapy/extern]. *)
Class XmlToDict : Type := {
  (** [xmltodict.parse(xml)] *)
  xmltodict_parse : string -> result xval
}.

(** ** Text *)

(** The newline and the double quote of the format strings. *)
Definition nl : string := String (ascii_of_nat 10) EmptyString.
Definition dq : string := String (ascii_of_nat 34) EmptyString.

(** [sep.join(l)] *)
Definition join (sep : string) (l : list string) : string := String.concat sep l.

Definition str_of_int (z : Z) : string := NilZero.string_of_int (Z.to_int z).

Definition repr_of_bool (b : bool) : string := if b then "True" else "False".

(** A scalar a catalog dict carries under ['val']. *)
Inductive scalar : Type :=
| SStr (s : string)
| SNum (v : pynum).

Section Text.
Context `{PyText}.

(** [float(x)] *)
Definition py_float (x : scalar) : result float :=
  match x with
  | SStr s =>
      match float_of_str s with
      | Some f => Ok f
      | None =>
          Err (ValueError ("could not convert string to float: " ++ repr_of_str s))
      end
  | SNum (PyFloat f) => Ok f
  | SNum (PyInt z) => float_of_int z
  end.

Definition str_of_num (v : pynum) : string :=
  match v with
  | PyInt z => str_of_int z
  | PyFloat f => str_of_float f
  end.

Definition repr_of_num (v : pynum) : string :=
  match v with
  | PyInt z => str_of_int z
  | PyFloat f => repr_of_float f
  end.

(** [repr] of a bound that may be [None]. *)
Definition repr_of_bound (b : option pynum) : string :=
  match b with
  | Some v => repr_of_num v
  | None => "None"
  end.

(** [str] of the covariance attribute. *)
Definition str_of_covariance (c : option matrix) : string :=
  match c with
  | Some m => str_of_matrix m
  | None => "None"
  end.
End Text.

(** ** class Parameter

The module is [Param] since [Parameter] is a keyword here. *)

Module Param.

Record t : Type := mk {
  name : string;
  value : pynum;
  unit : string;
  parmin : option pynum;
  parmax : option pynum;
  frozen : bool
}.

(** The [value] argument of the constructor: a number or a Quantity. *)
Inductive value_arg : Type :=
| Number (v : pynum)
| AsQuantity (q : Quantity).

(** [__init__]: a Quantity goes through the [quantity] setter, which
    stores its value and its unit and ignores the [unit] argument. *)
Definition init (name : string) (value : value_arg) (unit : string)
    (parmin parmax : option pynum) (frozen : bool) : t :=
  match value with
  | AsQuantity q => mk name (PyFloat (qvalue q)) (qunit q) parmin parmax frozen
  | Number v => mk name v unit parmin parmax frozen
  end.

(** [Parameter(name=..., value=..., unit=...)], the other arguments at
    their defaults. *)
Definition make (name : string) (value : pynum) (unit : string) : t :=
  init name (Number value) unit None None false.

(** The dict [from_dict_gammacat] reads: keys [name], [val], [unit]. *)
Record gammacat_dict : Type := mk_gammacat {
  gc_name : string;
  gc_val : scalar;
  gc_unit : string
}.

Section WithText.
Context `{PyText}.

(** [__str__] *)
Definition str (p : t) : string :=
  "Parameter(name=" ++ repr_of_str (name p)
  ++ ", value=" ++ repr_of_num (value p)
  ++ ", unit=" ++ repr_of_str (unit p)
  ++ ", min=" ++ repr_of_bound (parmin p)
  ++ ", max=" ++ repr_of_bound (parmax p)
  ++ ", frozen=" ++ repr_of_bool (frozen p) ++ ")".

Definition from_dict_gammacat (data : gammacat_dict) : result t :=
  v <- py_float (gc_val data) ;;
  Ok (make (gc_name data) (PyFloat v) (gc_unit data)).

(** [from_dict_xml]: [data.get] comes first, so anything that is not
    a dict fails with [AttributeError]. *)
Definition from_dict_xml (data : xval) : result t :=
  match data with
  | XDict attrs _ =>
      let unit := dict_get_default "unit" "" attrs in
      name <- xattr "name" data ;;
      s <- xattr "value" data ;;
      v <- py_float (SStr s) ;;
      Ok (make name (PyFloat v) unit)
  | _ => Err AttributeError
  end.

Definition to_xml (p : t) : string :=
  "        <parameter name=" ++ dq ++ name p ++ dq
  ++ " value=" ++ dq ++ str_of_num (value p) ++ dq
  ++ " unit=" ++ dq ++ unit p ++ dq ++ "/>".
End WithText.

End Param.

(** ** numpy *)

(** [np.diag(values)]: the square matrix with [values] on the diagonal and
    zero elsewhere. *)
Definition np_diag (values : list float) : matrix :=
  let n := List.length values in
  map (fun iv => map (fun j => if Nat.eqb (fst iv) j then snd iv else 0%float)
                     (seq 0 n))
      (combine (seq 0 n) values).

(** [m ** 2], entry by entry. *)
Definition np_square (m : matrix) : matrix :=
  map (map (fun x => (x * x)%float)) m.

(** Entry [(i, j)] of a matrix. *)
Definition entry (m : matrix) (i j : nat) : option float :=
  match nth_error m i with
  | Some row => nth_error row j
  | None => None
  end.

(** ** class ParameterList *)

Module ParameterList.

Record t : Type := mk {
  parameters : list Param.t;
  covariance : option matrix
}.

(** [ParameterList(parameters)], the covariance at its default. *)
Definition init (parameters : list Param.t) : t := mk parameters None.

(** The loop of [__getitem__]: the first parameter of that name. *)
Fixpoint first_named (name : string) (pars : list Param.t) : option Param.t :=
  match pars with
  | [] => None
  | par :: pars' =>
      if String.eqb name (Param.name par) then Some par
      else first_named name pars'
  end.

Section WithText.
Context `{PyText}.

(** [__str__] *)
Definition str (pl : t) : string :=
  fold_left (fun ss par => ss ++ nl ++ Param.str par)
            (parameters pl) "ParameterList"
  ++ nl ++ nl ++ "Covariance: " ++ str_of_covariance (covariance pl).

(** [__getitem__] *)
Definition getitem (pl : t) (name : string) : result Param.t :=
  match first_named name (parameters pl) with
  | Some par => Ok par
  | None =>
      Err (IndexError ("Parameter " ++ name ++ " not found for : " ++ str pl))
  end.

Definition from_list_of_dict_gammacat (data : list Param.gammacat_dict)
  : result t :=
  pars <- mapM Param.from_dict_gammacat data ;;
  Ok (init pars).

Definition from_list_of_dict_xml (data : xval) : result t :=
  items <- py_iter data ;;
  pars <- mapM Param.from_dict_xml items ;;
  Ok (init pars).

Definition to_xml (pl : t) : string :=
  join nl (map Param.to_xml (parameters pl)).
End WithText.

(** [_ufloats]: only a [LinAlgError] of [correlated_values] is caught
    and replaced; the dict is filled in the order of the parameters, a
    repeated name keeping its last value. *)
Definition _ufloats `{Uncertainties} (pl : t) : result (dict ufloat) :=
  let values := map Param.value (parameters pl) in
  match correlated_values values (covariance pl) with
  | Ok uarray =>
      Ok (fold_left (fun upars pu => dict_set (Param.name (fst pu)) (snd pu) upars)
                    (combine (parameters pl) uarray) [])
  | Err LinAlgError => Err (ValueError "Covariance matrix not set.")
  | Err e => Err e
  end.

(** One turn of the loop of [set_parameter_errors]: the default
    [0 * u.Unit(par.unit)] is built before [errors.get] is called. *)
Definition error_value `{Astropy} (errors : dict Quantity) (par : Param.t)
  : result float :=
  u <- Unit (Param.unit par) ;;
  let quantity := dict_get_default (Param.name par) (mkQuantity 0 u) errors in
  q <- quantity_to quantity (Param.unit par) ;;
  Ok (qvalue q).

(** [set_parameter_errors]: the list with its covariance replaced. *)
Definition set_parameter_errors `{Astropy} (pl : t) (errors : dict Quantity)
  : result t :=
  values <- mapM (error_value errors) (parameters pl) ;;
  Ok (mk (parameters pl) (Some (np_square (np_diag values)))).

End ParameterList.

(** ** class BaseModel *)

Module BaseModel.

(** A model of class [K]: the concrete class and the parameter list. *)
Record t (K : Type) : Type := mk {
  class : K;
  parameters : ParameterList.t
}.

(** What the constructor accepts for [parameters]. *)
Inductive parameters_arg : Type :=
| AsList (l : list Param.t)
| AsParameterList (pl : ParameterList.t).

(** [__init__]: a list is wrapped into a ParameterList. *)
Definition init {K} (cls : K) (parameters : parameters_arg) : t K :=
  match parameters with
  | AsParameterList pl => mk cls pl
  | AsList l => mk cls (ParameterList.init l)
  end.

(** The parameters as a plain list. *)
Definition plist {K} (m : t K) : list Param.t :=
  ParameterList.parameters (parameters m).

End BaseModel.

(** ** The catalog

What the module reads of a gamma-cat source: [source.data], whose
entries are quantities or plain strings, the outcome of
[source.spectral_model.to_dict()], and the text [str(source)]. *)

Inductive catalog_value : Type :=
| CatQuantity (q : Quantity)
| CatStr (s : string).

(** The dict [to_dict()] returns, with the text [str] gives for it. *)
Record spectral_dict : Type := mk_spectral_dict {
  sd_name : string;
  sd_parameters : list Param.gammacat_dict;
  sd_str : string
}.

(** [spectral_model_to_dict] is [None] when [to_dict()] raises
    [ValueError]. *)
Record catalog_source : Type := mk_source {
  data : dict catalog_value;
  spectral_model_to_dict : option spectral_dict;
  source_str : string
}.

(** [d[key]] followed by [.value] or [.unit]: a missing key is a
    [KeyError], a string has neither attribute. *)
Definition cat_quantity (key : string) (d : dict catalog_value) : result Quantity :=
  match dict_get key d with
  | Some (CatQuantity q) => Ok q
  | Some (CatStr _) => Err AttributeError
  | None => Err (KeyError key)
  end.

(** [d[key] == s]: a quantity never equals a string. *)
Definition cat_equals (key s : string) (d : dict catalog_value) : result bool :=
  match dict_get key d with
  | Some (CatStr s') => Ok (String.eqb s' s)
  | Some (CatQuantity _) => Ok false
  | None => Err (KeyError key)
  end.

(** [Parameter(name=name, value=d[key].value, unit=d[key].unit)] *)
Definition cat_parameter (name key : string) (d : dict catalog_value)
  : result Param.t :=
  q <- cat_quantity key d ;;
  Ok (Param.make name (PyFloat (qvalue q)) (qunit q)).

(** [x in l] for a list of strings. *)
Definition str_in (x : string) (l : list string) : bool :=
  existsb (String.eqb x) l.

(** ** The spectral models *)

Inductive spectral_class : Type := PowerLaw | PowerLaw2 | ExpCutoff.

Module SpectralModelPowerLaw.
Definition xml_type : string := "PowerLaw".
Definition xml_types : list string := [xml_type].

Definition from_plist `{PyText} (plist : ParameterList.t)
  : result (BaseModel.t spectral_class) :=
  par <- ParameterList.getitem plist "amplitude" ;;
  let prefactor := Param.make "Prefactor" (Param.value par) (Param.unit par) in
  par <- ParameterList.getitem plist "index" ;;
  let index := Param.make "Index" (py_neg (Param.value par)) (Param.unit par) in
  par <- ParameterList.getitem plist "reference" ;;
  let scale := Param.make "Scale" (Param.value par) (Param.unit par) in
  let parameters := [prefactor; index; scale] in
  Ok (BaseModel.init PowerLaw (BaseModel.AsList parameters)).
End SpectralModelPowerLaw.

Module SpectralModelPowerLaw2.
Definition xml_type : string := "PowerLaw2".
Definition xml_types : list string := [xml_type].

Definition from_plist `{PyText} (plist : ParameterList.t)
  : result (BaseModel.t spectral_class) :=
  par <- ParameterList.getitem plist "amplitude" ;;
  let integral := Param.make "Integral" (Param.value par) (Param.unit par) in
  par <- ParameterList.getitem plist "index" ;;
  let index := Param.make "Index" (py_neg (Param.value par)) (Param.unit par) in
  par <- ParameterList.getitem plist "emin" ;;
  let lower_limit := Param.make "LowerLimit" (Param.value par) (Param.unit par) in
  par <- ParameterList.getitem plist "emax" ;;
  let upper_limit := Param.make "UpperLimit" (Param.value par) (Param.unit par) in
  let parameters := [integral; index; lower_limit; upper_limit] in
  Ok (BaseModel.init PowerLaw2 (BaseModel.AsList parameters)).
End SpectralModelPowerLaw2.

Module SpectralModelExpCutoff.
Definition xml_type : string := "ExpCutoff".
Definition xml_types : list string := [xml_type].

Definition from_plist `{PyText} (plist : ParameterList.t)
  : result (BaseModel.t spectral_class) :=
  par <- ParameterList.getitem plist "amplitude" ;;
  let prefactor := Param.make "Prefactor" (Param.value par) (Param.unit par) in
  par <- ParameterList.getitem plist "index" ;;
  let index := Param.make "Index" (Param.value par) (Param.unit par) in
  par <- ParameterList.getitem plist "lambda_" ;;
  inverse <- py_inv (Param.value par) ;;
  let cutoff := Param.make "Cutoff" inverse (Param.unit par) in
  par <- ParameterList.getitem plist "reference" ;;
  let scale := Param.make "Scale" (Param.value par) (Param.unit par) in
  let parameters := [prefactor; index; cutoff; scale] in
  Ok (BaseModel.init ExpCutoff (BaseModel.AsList parameters)).
End SpectralModelExpCutoff.

Module SpectralModel.

Definition t : Type := BaseModel.t spectral_class.

(** [self.xml_type] *)
Definition xml_type (cls : spectral_class) : string :=
  match cls with
  | PowerLaw => SpectralModelPowerLaw.xml_type
  | PowerLaw2 => SpectralModelPowerLaw2.xml_type
  | ExpCutoff => SpectralModelExpCutoff.xml_type
  end.

Section WithText.
Context `{PyText}.

(** [from_xml_dict]: the parameters are read before the type is
    looked at. *)
Definition from_xml_dict (data : xval) : result t :=
  model_type <- xattr "type" data ;;
  pdata <- xchild "parameter" data ;;
  parameters <- ParameterList.from_list_of_dict_xml pdata ;;
  if String.eqb model_type SpectralModelPowerLaw.xml_type then
    Ok (BaseModel.init PowerLaw (BaseModel.AsParameterList parameters))
  else if String.eqb model_type SpectralModelPowerLaw2.xml_type then
    Ok (BaseModel.init PowerLaw2 (BaseModel.AsParameterList parameters))
  else if String.eqb model_type SpectralModelExpCutoff.xml_type then
    Ok (BaseModel.init ExpCutoff (BaseModel.AsParameterList parameters))
  else
    Err (UnknownModelError ("Unknown spatial model: " ++ model_type)).

Definition from_gammacat (source : catalog_source) : result t :=
  match spectral_model_to_dict source with
  | None => Err NoDataAvailableError
  | Some data =>
      plist <- ParameterList.from_list_of_dict_gammacat (sd_parameters data) ;;
      if String.eqb (sd_name data) "PowerLaw" then
        SpectralModelPowerLaw.from_plist plist
      else if String.eqb (sd_name data) "PowerLaw2" then
        SpectralModelPowerLaw2.from_plist plist
      else if String.eqb (sd_name data) "ExponentialCutoffPowerLaw" then
        SpectralModelExpCutoff.from_plist plist
      else
        Err (UnknownModelError ("Unknown spectral model: " ++ sd_str data))
  end.

Definition to_xml (m : t) : string :=
  "<spectrum type=" ++ dq ++ xml_type (BaseModel.class m) ++ dq ++ ">" ++ nl
  ++ ParameterList.to_xml (BaseModel.parameters m) ++ nl
  ++ "    </spectrum>".
End WithText.

End SpectralModel.

(** ** The spatial models *)

Inductive spatial_class : Type := Point | Gauss | Shell.

Module SpatialModelPoint.
Definition xml_source_type : string := "PointSource".
Definition xml_type : string := "Point".
Definition xml_types : list string := [xml_type].

Definition from_gammacat (source : catalog_source)
  : result (BaseModel.t spatial_class) :=
  let d := data source in
  glon <- cat_parameter "GLON" "glon" d ;;
  glat <- cat_parameter "GLAT" "glat" d ;;
  let parameters := [glon; glat] in
  Ok (BaseModel.init Point (BaseModel.AsList parameters)).
End SpatialModelPoint.

Module SpatialModelGauss.
Definition xml_source_type : string := "ExtendedSource".
Definition xml_type : string := "Gauss".
Definition xml_types : list string := [xml_type; "Gaussian"].

Definition from_gammacat (source : catalog_source)
  : result (BaseModel.t spatial_class) :=
  let d := data source in
  glon <- cat_parameter "GLON" "glon" d ;;
  glat <- cat_parameter "GLAT" "glat" d ;;
  sigma <- cat_parameter "Sigma" "morph_sigma" d ;;
  let parameters := [glon; glat; sigma] in
  Ok (BaseModel.init Gauss (BaseModel.AsList parameters)).
End SpatialModelGauss.

Module SpatialModelShell.
Definition xml_source_type : string := "ExtendedSource".
Definition xml_type : string := "Shell".
Definition xml_types : list string := [xml_type; "RadialShell"].

Definition from_gammacat (source : catalog_source)
  : result (BaseModel.t spatial_class) :=
  let d := data source in
  glon <- cat_parameter "GLON" "glon" d ;;
  glat <- cat_parameter "GLAT" "glat" d ;;
  radius <- cat_parameter "Radius" "morph_sigma" d ;;
  let width := Param.make "Width" (PyInt 0) "deg" in
  let parameters := [glon; glat; radius; width] in
  Ok (BaseModel.init Shell (BaseModel.AsList parameters)).
End SpatialModelShell.

Module SpatialModel.

Definition t : Type := BaseModel.t spatial_class.

Definition xml_type (cls : spatial_class) : string :=
  match cls with
  | Point => SpatialModelPoint.xml_type
  | Gauss => SpatialModelGauss.xml_type
  | Shell => SpatialModelShell.xml_type
  end.

Definition xml_types (cls : spatial_class) : list string :=
  match cls with
  | Point => SpatialModelPoint.xml_types
  | Gauss => SpatialModelGauss.xml_types
  | Shell => SpatialModelShell.xml_types
  end.

Definition xml_source_type (cls : spatial_class) : string :=
  match cls with
  | Point => SpatialModelPoint.xml_source_type
  | Gauss => SpatialModelGauss.xml_source_type
  | Shell => SpatialModelShell.xml_source_type
  end.

(** [from_xml_dict]: only ['@type'] is read; each class is built with
    the literal [parameters=[]]. *)
Definition from_xml_dict (data : xval) : result t :=
  model_type <- xattr "type" data ;;
  if str_in model_type SpatialModelPoint.xml_types then
    Ok (BaseModel.init Point (BaseModel.AsList []))
  else if str_in model_type SpatialModelGauss.xml_types then
    Ok (BaseModel.init Gauss (BaseModel.AsList []))
  else if str_in model_type SpatialModelShell.xml_types then
    Ok (BaseModel.init Shell (BaseModel.AsList []))
  else
    Err (UnknownModelError ("Unknown spatial model: " ++ model_type)).

Definition from_gammacat (source : catalog_source) : result t :=
  let d := data source in
  is_point <- cat_equals "morph_type" "point" d ;;
  if is_point then SpatialModelPoint.from_gammacat source
  else
    is_gauss <- cat_equals "morph_type" "gauss" d ;;
    if is_gauss then SpatialModelGauss.from_gammacat source
    else
      is_shell <- cat_equals "morph_type" "shell" d ;;
      if is_shell then SpatialModelShell.from_gammacat source
      else Err (UnknownModelError ("Unknown spatial model: " ++ source_str source)).

Definition to_xml `{PyText} (m : t) : string :=
  "<spatialModel type=" ++ dq ++ xml_type (BaseModel.class m) ++ dq ++ ">" ++ nl
  ++ ParameterList.to_xml (BaseModel.parameters m) ++ nl
  ++ "    </spatialModel>".

End SpatialModel.

(** ** class SourceModel *)

Module SourceModel.

Record t : Type := mk {
  source_name : string;
  source_type : string;
  spatial_model : SpatialModel.t;
  spectral_model : SpectralModel.t
}.

Section WithText.
Context `{PyText}.

(** The choice of the spatial entry in [from_xml_dict]; it runs on a
    dict, the subscripts before it having succeeded. *)
Definition spatial_from_xml_dict (data : xval) : result SpatialModel.t :=
  match data with
  | XDict _ children =>
      if dict_mem "radialModel" children then
        entry <- xchild "radialModel" data ;;
        SpatialModel.from_xml_dict entry
      else if dict_mem "spatialModel" children then
        entry <- xchild "spatialModel" data ;;
        SpatialModel.from_xml_dict entry
      else
        Err (UnknownModelError
               ("No spatial / radial model found for: " ++ str_of_xval data))
  | _ => Err TypeError
  end.

Definition from_xml_dict (data : xval) : result t :=
  source_name <- xattr "name" data ;;
  source_type <- xattr "type" data ;;
  spectrum <- xchild "spectrum" data ;;
  spectral_model <- SpectralModel.from_xml_dict spectrum ;;
  spatial_model <- spatial_from_xml_dict data ;;
  Ok (mk source_name source_type spatial_model spectral_model).

Definition to_xml (s : t) : string :=
  "<source name=" ++ dq ++ source_name s ++ dq
  ++ " type=" ++ dq ++ source_type s ++ dq ++ ">" ++ nl
  ++ "    " ++ SpectralModel.to_xml (spectral_model s) ++ nl
  ++ "    " ++ SpatialModel.to_xml (spatial_model s) ++ nl
  ++ "</source>" ++ nl.
End WithText.

End SourceModel.

(** ** class SourceLibrary *)

Module SourceLibrary.

Record t : Type := mk { source_list : list SourceModel.t }.

Section WithText.
Context `{PyText}.

Definition from_list_of_dict (data : xval) : result t :=
  items <- py_iter data ;;
  source_list <- mapM SourceModel.from_xml_dict items ;;
  Ok (mk source_list).

Definition from_xml `{XmlToDict} (xml : string) : result t :=
  full_dict <- xmltodict_parse xml ;;
  library <- xchild "source_library" full_dict ;;
  sources_dict <- xchild "source" library ;;
  from_list_of_dict sources_dict.

Definition to_xml (lib : t) (title header : string) : string :=
  let sources_xml := join nl (map SourceModel.to_xml (source_list lib)) in
  "<?xml version=" ++ dq ++ "1.0" ++ dq ++ " ?>" ++ nl
  ++ header ++ nl
  ++ "<source_library title=" ++ dq ++ title ++ dq ++ ">" ++ nl
  ++ nl
  ++ sources_xml ++ nl
  ++ "</source_library>" ++ nl.

(** [to_xml()] with the default [title] and [header]. *)
Definition to_xml_default (lib : t) : string := to_xml lib "sources" nl.
End WithText.

End SourceLibrary.

(** ** A reference implementation of the libraries

Enough of each interface to run the model on concrete inputs. *)

Module Reference.

(** *** Reading a decimal literal *)

Definition digit_of (c : ascii) : option Z :=
  let n := nat_of_ascii c in
  if (48 <=? n)%nat && (n <=? 57)%nat then Some (Z.of_nat (n - 48)) else None.

(** The leading digits of [s] appended to [acc], how many there were,
    and what follows them. *)
Fixpoint digits (s : string) (acc : Z) (count : nat) : Z * nat * string :=
  match s with
  | String c s' =>
      match digit_of c with
      | Some d => digits s' (10 * acc + d)%Z (S count)
      | None => (acc, count, s)
      end
  | EmptyString => (acc, count, s)
  end.

Definition sign (s : string) : bool * string :=
  match s with
  | String "-" s' => (true, s')
  | String "+" s' => (false, s')
  | _ => (false, s)
  end.

(** [[sign] digits [. digits] [e [sign] digits]] as sign, mantissa and
    power of ten. *)
Definition decimal (s : string) : option (bool * Z * Z) :=
  let (neg, s1) := sign s in
  let '(int_part, n_int, s2) := digits s1 0 0 in
  let '(m, n_frac, s3) :=
    match s2 with
    | String "." s2' => digits s2' int_part 0
    | _ => (int_part, 0%nat, s2)
    end in
  if (n_int + n_frac =? 0)%nat then None
  else
    match s3 with
    | EmptyString => Some (neg, m, (- Z.of_nat n_frac)%Z)
    | String c s4 =>
        if Ascii.eqb c "e" || Ascii.eqb c "E" then
          let (eneg, s5) := sign s4 in
          let '(e, n_e, s6) := digits s5 0 0 in
          match n_e, s6 with
          | S _, EmptyString =>
              Some (neg, m, ((if eneg then - e else e) - Z.of_nat n_frac)%Z)
          | _, _ => None
          end
        else None
    end.

(** The binary64 nearest to [m * 10 ^ e] (ties to even), for [0 <= m]. *)
Definition nearest (neg : bool) (m e : Z) : float :=
  let f :=
    if (m =? 0)%Z then zero
    else if (0 <=? e)%Z then SF2Prim (binary_normalize prec emax (m * 10 ^ e) 0 false)
    else SF2Prim (SFdiv prec emax (S754_finite false (Z.to_pos m) 0)
                                  (S754_finite false (Z.to_pos (10 ^ (- e))) 0)) in
  if neg then (- f)%float else f.

Definition float_of_str (s : string) : option float :=
  match decimal s with
  | Some (neg, m, e) => Some (nearest neg m e)
  | None => None
  end.

(** *** Printing a float: every digit of its binary value *)

(** [n] without trailing zeros, of [k] digits at first; at least one
    digit stays. *)
Fixpoint strip_zeros (k : nat) (n : Z) : nat * Z :=
  match k with
  | S (S k' as k1) => if (n mod 10 =? 0)%Z then strip_zeros k1 (n / 10)%Z else (k, n)
  | _ => (k, n)
  end.

(** The last [k] digits of [n], zeros in front included. *)
Definition padded (k : nat) (n : Z) : string :=
  match str_of_int (10 ^ Z.of_nat k + n) with
  | String _ s => s
  | EmptyString => EmptyString
  end.

Definition str_of_float (f : float) : string :=
  match Prim2SF f with
  | S754_nan => "nan"
  | S754_infinity s => if s then "-inf" else "inf"
  | S754_zero s => if s then "-0.0" else "0.0"
  | S754_finite s m e =>
      let body :=
        if (0 <=? e)%Z then str_of_int (Zpos m * 2 ^ e) ++ ".0"
        else
          let k := Z.to_nat (- e) in
          let n := (Zpos m * 5 ^ (- e))%Z in
          let scale := (10 ^ (- e))%Z in
          let (k', frac) := strip_zeros k (n mod scale) in
          str_of_int (n / scale) ++ "." ++ padded k' frac in
      if s then "-" ++ body else body
  end.

Definition quote (s : string) : string := "'" ++ s ++ "'".

Definition str_of_matrix (m : matrix) : string :=
  "[" ++ join (nl ++ " ")
           (map (fun row => "[" ++ join " " (map str_of_float row) ++ "]") m)
  ++ "]".

Definition str_of_item (key value : string) : string :=
  quote key ++ ": " ++ value.

Fixpoint str_of_xval (v : xval) : string :=
  match v with
  | XNone => "None"
  | XStr s => quote s
  | XList l => "[" ++ join ", " (map str_of_xval l) ++ "]"
  | XDict attrs children =>
      "{" ++ join ", "
               (List.app
                  (map (fun kv => str_of_item ("@" ++ fst kv) (quote (snd kv))) attrs)
                  (map (fun kv : string * xval => let (k, v') := kv in
                                  str_of_item k (str_of_xval v')) children))
      ++ "}"
  end.

#[global] Instance text : PyText :=
  Build_PyText float_of_str str_of_float str_of_float quote
               str_of_matrix str_of_xval.

(** *** Units: every string names a unit, and only equal units convert *)

#[global] Instance units : Astropy := {|
  Unit := fun s => Ok s;
  quantity_to := fun q u =>
    if String.eqb (qunit q) u then Ok q else Err UnitConversionError
|}.

(** *** Correlated values: a nominal value with its standard deviation

[correlated_values] of uncertainties 3 over numpy, step by step:
[numpy.diag] of the covariance, which raises the [ValueError] "Input
must be 1- or 2-d." when there is none; the division of the matrix by the
deviations, along its rows and then along its columns, under numpy's
broadcasting; the pairs that [zip] makes of the values and the
deviations, unpacked from their transpose; [numpy.linalg.eigh], which
raises [LinAlgError] for a matrix that is not square and has no
complaint about a singular one; the scaling of the eigenvectors by the
deviations; and one correlated value for each pair.  A correlated value
is kept as its nominal value and its standard deviation, the square root
of the variance on the diagonal: the correlations between the values are
not kept.  The entries of the matrix are taken to be numbers, with no
negative variance on the diagonal. *)

(** [numpy.diag(m)] of a matrix: the entries [(i, i)] from row [i] on. *)
Fixpoint diagonal_from (i : nat) (m : matrix) : list float :=
  match m with
  | [] => []
  | row :: m' =>
      match nth_error row i with
      | Some x => x :: diagonal_from (S i) m'
      | None => []
      end
  end.

Definition columns (m : matrix) : nat :=
  match m with
  | [] => 0
  | row :: _ => List.length row
  end.

Definition rectangular (m : matrix) : bool :=
  forallb (fun row => Nat.eqb (List.length row) (columns m)) m.

(** Two lengths under numpy's broadcasting. *)
Definition broadcast (a b : nat) : option nat :=
  if Nat.eqb a b then Some a
  else if Nat.eqb a 1 then Some b
  else if Nat.eqb b 1 then Some a
  else None.

Definition str_of_nat (n : nat) : string := NilZero.string_of_uint (Nat.to_uint n).

(** A shape the way Python writes a tuple: [(3,)], [(2,3)]. *)
Definition str_of_shape (shape : list nat) : string :=
  match shape with
  | [n] => "(" ++ str_of_nat n ++ ",)"
  | _ => "(" ++ String.concat "," (map str_of_nat shape) ++ ")"
  end.

Definition not_broadcast (shapes : list (list nat)) : pyerr :=
  ValueError ("operands could not be broadcast together with shapes "
              ++ String.concat EmptyString (map (fun sh => str_of_shape sh ++ " ") shapes)).

Definition inhomogeneous (rows : nat) : pyerr :=
  ValueError ("setting an array element with a sequence. The requested array has "
              ++ "an inhomogeneous shape after 1 dimensions. The detected shape was "
              ++ str_of_shape [rows] ++ " + inhomogeneous part.").

Definition correlated (values : list pynum) (m : matrix) : result (list (pynum * float)) :=
  let r := List.length m in
  let c := columns m in
  let std_devs := map sqrt (diagonal_from 0 m) in
  let d := List.length std_devs in
  let pairs := combine values std_devs in
  let p := List.length pairs in
  if negb (rectangular m) then Err (inhomogeneous r)
  else
    match broadcast c d with
    | None => Err (not_broadcast [[r; c]; [d]])
    | Some c' =>
        match broadcast r d with
        | None => Err (not_broadcast [[r; c']; [d; 1]])
        | Some r' =>
            if Nat.eqb p 0
            then Err (ValueError "not enough values to unpack (expected 2, got 0)")
            else if negb (Nat.eqb r' c') then Err LinAlgError
            else if Nat.eqb p r' || Nat.eqb p 1 then Ok pairs
            else Err (not_broadcast [[r'; c']; [p; 1]; [r'; c']])
        end
    end.

#[global] Instance uncertainties : Uncertainties := {|
  ufloat := pynum * float;
  correlated_values := fun values cov =>
    match cov with
    | None => Err (ValueError "Input must be 1- or 2-d.")
    | Some m => correlated values m
    end
|}.

(** *** Reading XML

The documents are those of the XML interface of the module, elements with
attributes and child elements: no text content, no entities.  An element
becomes [XDict attrs children], or [XNone] when it has neither; children
of one tag are gathered into a list when there is more than one, and a
single child stays a dict. *)

Definition is_space (c : ascii) : bool :=
  let n := nat_of_ascii c in
  ((n =? 32) || (n =? 10) || (n =? 9) || (n =? 13))%nat.

Definition is_name_char (c : ascii) : bool :=
  let n := nat_of_ascii c in
  (((65 <=? n) && (n <=? 90)) || ((97 <=? n) && (n <=? 122))
   || ((48 <=? n) && (n <=? 57)) || (n =? 95) || (n =? 45))%nat.

Fixpoint skip_space (s : string) : string :=
  match s with
  | String c s' => if is_space c then skip_space s' else s
  | EmptyString => s
  end.

(** The name [s] starts with, and what follows it. *)
Fixpoint name_of (s : string) : string * string :=
  match s with
  | String c s' =>
      if is_name_char c then
        let (n, rest) := name_of s' in (String c n, rest)
      else (EmptyString, s)
  | EmptyString => (EmptyString, s)
  end.

(** The text before the first [stop], and what follows that [stop]. *)
Fixpoint until (stop : ascii) (s : string) : option (string * string) :=
  match s with
  | String c s' =>
      if Ascii.eqb c stop then Some (EmptyString, s')
      else
        match until stop s' with
        | Some (text, rest) => Some (String c text, rest)
        | None => None
        end
  | EmptyString => None
  end.

Fixpoint attributes (fuel : nat) (s : string) : option (dict string * string) :=
  match fuel with
  | O => None
  | S fuel' =>
      match name_of (skip_space s) with
      | (EmptyString, rest) => Some ([], rest)
      | (a, String "=" (String quote_mark s1)) =>
          if Ascii.eqb quote_mark (ascii_of_nat 34) then
            match until quote_mark s1 with
            | Some (v, s2) =>
                match attributes fuel' s2 with
                | Some (more, s3) => Some ((a, v) :: more, s3)
                | None => None
                end
            | None => None
            end
          else None
      | _ => None
      end
  end.

Fixpoint add_child (tag : string) (v : xval) (children : dict xval) : dict xval :=
  match children with
  | [] => [(tag, v)]
  | (t, old) :: rest =>
      if String.eqb tag t then
        (t, match old with
            | XList l => XList (l ++ [v])
            | _ => XList [old; v]
            end) :: rest
      else (t, old) :: add_child tag v rest
  end.

Definition element_value (attrs : dict string) (children : dict xval) : xval :=
  match attrs, children with
  | [], [] => XNone
  | _, _ => XDict attrs children
  end.

(** [element] reads one element, [content] the children up to and
    including the [</] of the closing tag. *)
Fixpoint element (fuel : nat) (s : string) : option (string * xval * string) :=
  match fuel with
  | O => None
  | S fuel' =>
      match s with
      | String "<" s1 =>
          match name_of s1 with
          | (EmptyString, _) => None
          | (tag, s2) =>
              match attributes fuel' s2 with
              | Some (attrs, String "/" (String ">" s3)) =>
                  Some (tag, element_value attrs [], s3)
              | Some (attrs, String ">" s3) =>
                  match content fuel' s3 [] with
                  | Some (children, s4) =>
                      let (closing, s5) := name_of s4 in
                      match String.eqb closing tag, skip_space s5 with
                      | true, String ">" s6 =>
                          Some (tag, element_value attrs children, s6)
                      | _, _ => None
                      end
                  | None => None
                  end
              | _ => None
              end
          end
      | _ => None
      end
  end
with content (fuel : nat) (s : string) (acc : dict xval)
  : option (dict xval * string) :=
  match fuel with
  | O => None
  | S fuel' =>
      match skip_space s with
      | String "<" (String "/" s1) => Some (acc, s1)
      | String "<" _ as s1 =>
          match element fuel' s1 with
          | Some (tag, v, s2) => content fuel' s2 (add_child tag v acc)
          | None => None
          end
      | _ => None
      end
  end.

(** The text after the XML declaration, when there is one. *)
Definition after_declaration (s : string) : string :=
  match skip_space s with
  | String "<" (String "?" s1) =>
      match until ">" s1 with
      | Some (_, s2) => s2
      | None => EmptyString
      end
  | s' => s'
  end.

(** Modelled from the spec: [xmltodict.parse], which the repository keeps
    under [gammapy/extern] and which is not among the sources.  The root
    element is returned as a dict with its tag as the only key. *)
Definition parse (xml : string) : result xval :=
  match element (String.length xml) (skip_space (after_declaration xml)) with
  | Some (tag, v, rest) =>
      match skip_space rest with
      | EmptyString => Ok (XDict [] [(tag, v)])
      | _ => Err (OtherError "ExpatError")
      end
  | None => Err (OtherError "ExpatError")
  end.

#[global] Instance xmltodict : XmlToDict := Build_XmlToDict parse.

End Reference.

(** ** Concrete inputs *)

Module Sample.

Definition glon : Param.t := Param.make "GLON" (PyFloat 184.5) "deg".
Definition glat : Param.t := Param.make "GLAT" (PyFloat (-5.75)) "deg".
Definition sigma : Param.t := Param.make "Sigma" (PyFloat 0.25) "deg".

(** A list with a parameter named Sigma. *)
Definition gauss_list : ParameterList.t := ParameterList.init [glon; glat; sigma].

(** [{'@name': 'Index', '@value': '-2.3', '@unit': 'TeV-1'}] *)
Definition index_dict : xval :=
  XDict [("name", "Index"); ("value", "-2.3"); ("unit", "TeV-1")] [].

(** The same without its unit. *)
Definition index_dict_no_unit : xval :=
  XDict [("name", "Index"); ("value", "-2.3")] [].

(** A shell of radius 0.3 deg in the catalog. *)
Definition shell_source : catalog_source :=
  mk_source [("common_name", CatStr "Vela Junior");
             ("morph_type", CatStr "shell");
             ("glon", CatQuantity (mkQuantity 266.25 "deg"));
             ("glat", CatQuantity (mkQuantity (-1.25) "deg"));
             ("morph_sigma", CatQuantity (mkQuantity 0.3 "deg"))]
            None "Vela Junior".

(** [<radialModel type="RadialShell">] with two parameter elements. *)
Definition radial_shell_dict : xval :=
  XDict [("type", "RadialShell")]
        [("parameter",
          XList [XDict [("name", "Radius"); ("value", "0.25"); ("unit", "deg")] [];
                 XDict [("name", "Width"); ("value", "0.0"); ("unit", "deg")] []])].

(** [<spectrum type="PowerLaw">] with Prefactor, Index and Scale. *)
Definition power_law_dict : xval :=
  XDict [("type", "PowerLaw")]
        [("parameter",
          XList [XDict [("name", "Prefactor"); ("value", "0.5");
                        ("unit", "cm-2 s-1 TeV-1")] [];
                 XDict [("name", "Index"); ("value", "-2.3"); ("unit", "")] [];
                 XDict [("name", "Scale"); ("value", "1"); ("unit", "TeV")] []])].

(** [<spectrum type="Bogus"/>]: an unknown type and no parameter. *)
Definition bogus_dict : xval := XDict [("type", "Bogus")] [].

(** An unknown type over a parameter list that reads well. *)
Definition bogus_dict_with_parameters : xval :=
  XDict [("type", "Bogus")]
        [("parameter",
          XList [XDict [("name", "Index"); ("value", "-2.3"); ("unit", "")] [];
                 XDict [("name", "Scale"); ("value", "1"); ("unit", "TeV")] []])].

(** [<source name="Crab" type="PointSource"/>]: no spectrum and no
    spatial model. *)
Definition bare_source_dict : xval :=
  XDict [("name", "Crab"); ("type", "PointSource")] [].

(** A source with a spectrum, in three versions: with both spatial
    entries, with a [spatialModel] only, with neither. *)
Definition source_dict (spatial : dict xval) : xval :=
  XDict [("name", "Crab"); ("type", "PointSource")]
        (("spectrum", power_law_dict) :: spatial).

Definition both_spatial : dict xval :=
  [("spatialModel", XDict [("type", "Point")] []);
   ("radialModel", radial_shell_dict)].

Definition only_spatial : dict xval :=
  [("spatialModel", XDict [("type", "Point")] [])].

(** [[Parameter('amplitude', 10, 'cm-2 s-1'), Parameter('index', 2, '')]]
    and the errors [{'amplitude': 1 cm-2 s-1}]. *)
Definition amplitude_index : ParameterList.t :=
  ParameterList.init [Param.make "amplitude" (PyInt 10) "cm-2 s-1";
                      Param.make "index" (PyInt 2) ""].

Definition amplitude_error : dict Quantity :=
  [("amplitude", mkQuantity 1 "cm-2 s-1")].

(** Two sources whose spatial models have parameters. *)
Definition power_law_parameters : list Param.t :=
  [Param.make "Prefactor" (PyFloat 0.5) "cm-2 s-1 TeV-1";
   Param.make "Index" (PyFloat (-2.5)) "";
   Param.make "Scale" (PyFloat 1) "TeV"].

Definition crab : SourceModel.t :=
  SourceModel.mk "Crab" "PointSource"
    (BaseModel.init Point (BaseModel.AsList [glon; glat]))
    (BaseModel.init PowerLaw (BaseModel.AsList power_law_parameters)).

Definition vela : SourceModel.t :=
  SourceModel.mk "Vela" "ExtendedSource"
    (BaseModel.init Shell
       (BaseModel.AsList [Param.make "GLON" (PyFloat 263.5) "deg";
                          Param.make "GLAT" (PyFloat (-3)) "deg";
                          Param.make "Radius" (PyFloat 0.25) "deg";
                          Param.make "Width" (PyInt 0) "deg"]))
    (BaseModel.init PowerLaw (BaseModel.AsList power_law_parameters)).

Definition two_sources : SourceLibrary.t := SourceLibrary.mk [crab; vela].

(** The same two sources with the parameters of their spatial models
    gone. *)
Definition two_sources_read_back : SourceLibrary.t :=
  SourceLibrary.mk
    [SourceModel.mk "Crab" "PointSource"
       (BaseModel.init Point (BaseModel.AsList []))
       (BaseModel.init PowerLaw (BaseModel.AsList power_law_parameters));
     SourceModel.mk "Vela" "ExtendedSource"
       (BaseModel.init Shell (BaseModel.AsList []))
       (BaseModel.init PowerLaw (BaseModel.AsList power_law_parameters))].

(** Catalog parameters of an exponential cutoff power law. *)
Definition ecpl_plist : ParameterList.t :=
  ParameterList.init [Param.make "amplitude" (PyFloat 0.5) "cm-2 s-1 TeV-1";
                      Param.make "index" (PyFloat 2.5) "";
                      Param.make "lambda_" (PyFloat 0.125) "TeV-1";
                      Param.make "reference" (PyFloat 1) "TeV";
                      Param.make "emin" (PyFloat 1) "TeV";
                      Param.make "emax" (PyFloat 10) "TeV"].
End Sample.

(** ** The vocabulary of the statements *)

(** [part] occurs in [whole]. *)
Definition contains (part whole : string) : Prop :=
  exists before after, whole = before ++ part ++ after.

(** The dict of a [parameter] element with its three attributes. *)
Definition parameter_dict (triple : string * string * string) : xval :=
  let '(n, v, u) := triple in XDict [("name", n); ("value", v); ("unit", u)] [].

(** The parameter a triple stands for, once its value is read as [f]. *)
Definition parameter_of (tf : string * string * string * float) : Param.t :=
  let '(n, _, u, f) := tf in Param.make n (PyFloat f) u.

(** The tags [SpectralModel.from_xml_dict] knows. *)
Definition registered_spectral (tag : string) : bool :=
  str_in tag [SpectralModelPowerLaw.xml_type;
              SpectralModelPowerLaw2.xml_type;
              SpectralModelExpCutoff.xml_type].

(** What the specification says of [set_parameter_errors]: the error of
    a parameter is its entry of the mapping converted to the unit of the
    parameter, and zero when the mapping has no entry for it. *)
Definition error_in_unit `{Astropy} (errors : dict Quantity) (par : Param.t)
    (e : float) : Prop :=
  match dict_get (Param.name par) errors with
  | Some q => exists q', quantity_to q (Param.unit par) = Ok q' /\ e = qvalue q'
  | None => e = 0%float
  end.

(** [m] is the square matrix with [d] on its diagonal and zero elsewhere. *)
Definition diagonal_matrix (m : matrix) (d : list float) : Prop :=
  List.length m = List.length d
  /\ Forall (fun row => List.length row = List.length d) m
  /\ forall i j x,
      nth_error d i = Some x ->
      (j < List.length d)%nat ->
      entry m i j = Some (if Nat.eqb i j then x else 0%float).

(** [a == b] on numbers: an int and a float are compared by their exact
    values. *)
Definition py_eq (a b : pynum) : bool :=
  let int_float (z : Z) (f : float) : bool :=
    match Prim2SF f with
    | S754_zero _ => (z =? 0)%Z
    | S754_finite s m e =>
        let v := if s then Z.neg m else Z.pos m in
        if (0 <=? e)%Z then (z =? v * 2 ^ e)%Z else (z * 2 ^ (- e) =? v)%Z
    | _ => false
    end in
  match a, b with
  | PyInt x, PyInt y => (x =? y)%Z
  | PyFloat x, PyFloat y => (x =? y)%float
  | PyInt z, PyFloat f | PyFloat f, PyInt z => int_float z f
  end.

(** Two parameter lists with the same name, value, unit triples. *)
Definition same_triples (l l' : list Param.t) : Prop :=
  Forall2 (fun p p' => Param.name p = Param.name p'
                       /\ py_eq (Param.value p) (Param.value p') = true
                       /\ Param.unit p = Param.unit p') l l'.

(** What the round trip is to keep of a source. *)
Definition same_source (s s' : SourceModel.t) : Prop :=
  SourceModel.source_name s = SourceModel.source_name s'
  /\ SourceModel.source_type s = SourceModel.source_type s'
  /\ same_triples (BaseModel.plist (SourceModel.spectral_model s))
                  (BaseModel.plist (SourceModel.spectral_model s'))
  /\ same_triples (BaseModel.plist (SourceModel.spatial_model s))
                  (BaseModel.plist (SourceModel.spatial_model s')).

Definition same_library (lib lib' : SourceLibrary.t) : Prop :=
  Forall2 same_source (SourceLibrary.source_list lib) (SourceLibrary.source_list lib').

(** ** Further vocabulary and inputs *)

(** The name, value, unit triple of a parameter. *)
Definition triple (p : Param.t) : string * pynum * string :=
  (Param.name p, Param.value p, Param.unit p).

(** The attributes [Parameter.to_xml] writes, in its order. *)
Definition written_attrs `{PyText} (p : Param.t) : dict string :=
  [("name", Param.name p); ("value", str_of_num (Param.value p));
   ("unit", Param.unit p)].

(** One attribute in the text of an element. *)
Definition attr_text (kv : string * string) : string :=
  " " ++ fst kv ++ "=" ++ dq ++ snd kv ++ dq.

(** The parameter read back from the attributes of [p] when its value
    reads as [f]. *)
Definition read_back (pf : Param.t * float) : Param.t :=
  Param.make (Param.name (fst pf)) (PyFloat (snd pf)) (Param.unit (fst pf)).

(** The catalog names each [from_plist] asks for, in the order it asks. *)
Definition required (cls : spectral_class) : list string :=
  match cls with
  | PowerLaw => ["amplitude"; "index"; "reference"]
  | PowerLaw2 => ["amplitude"; "index"; "emin"; "emax"]
  | ExpCutoff => ["amplitude"; "index"; "lambda_"; "reference"]
  end.

(** The parameter names each [from_plist] gives its model. *)
Definition canonical_names (cls : spectral_class) : list string :=
  match cls with
  | PowerLaw => ["Prefactor"; "Index"; "Scale"]
  | PowerLaw2 => ["Integral"; "Index"; "LowerLimit"; "UpperLimit"]
  | ExpCutoff => ["Prefactor"; "Index"; "Cutoff"; "Scale"]
  end.

(** The [from_plist] of a class. *)
Definition from_plist_of `{PyText} (cls : spectral_class)
  : ParameterList.t -> result (BaseModel.t spectral_class) :=
  match cls with
  | PowerLaw => SpectralModelPowerLaw.from_plist
  | PowerLaw2 => SpectralModelPowerLaw2.from_plist
  | ExpCutoff => SpectralModelExpCutoff.from_plist
  end.

(** The [morph_type] the catalog gives each spatial class. *)
Definition morph_type_of (cls : spatial_class) : string :=
  match cls with
  | Point => "point"
  | Gauss => "gauss"
  | Shell => "shell"
  end.

(** The parameters [from_gammacat] gives each spatial class, from the
    quantities [glon], [glat] and [morph_sigma] of the catalog. *)
Definition spatial_parameters (cls : spatial_class) (glon glat sigma : Quantity)
  : list Param.t :=
  let GLON := Param.make "GLON" (PyFloat (qvalue glon)) (qunit glon) in
  let GLAT := Param.make "GLAT" (PyFloat (qvalue glat)) (qunit glat) in
  match cls with
  | Point => [GLON; GLAT]
  | Gauss => [GLON; GLAT; Param.make "Sigma" (PyFloat (qvalue sigma)) (qunit sigma)]
  | Shell => [GLON; GLAT;
              Param.make "Radius" (PyFloat (qvalue sigma)) (qunit sigma);
              Param.make "Width" (PyInt 0) "deg"]
  end.

(** A parameter holds the defaults of the constructor: no bounds, not
    frozen. *)
Definition at_defaults (p : Param.t) : Prop :=
  Param.parmin p = None /\ Param.parmax p = None /\ Param.frozen p = false.

Module More.

(** An astropy that does not know the unit ["?"]. *)
Definition strict_units : Astropy :=
  Build_Astropy
    (fun s => if String.eqb s "?" then Err (ValueError "'?' did not parse as unit")
              else Ok s)
    (fun q u => if String.eqb (qunit q) u then Ok q else Err UnitConversionError).

(** A list with bounds, a frozen parameter and a covariance. *)
Definition bounded_list : ParameterList.t :=
  ParameterList.mk
    [Param.mk "amplitude" (PyFloat 0.5) "cm-2 s-1 TeV-1" (Some (PyFloat 0)) None false;
     Param.mk "index" (PyFloat 2.5) "" (Some (PyFloat 1)) (Some (PyFloat 5)) true;
     Param.mk "reference" (PyFloat 1) "TeV" None None true]
    (Some [[1; 0; 0]; [0; 0.25; 0]; [0; 0; 0]]%float).

(** The same triples at the defaults. *)
Definition plain_list : ParameterList.t :=
  ParameterList.init [Param.make "amplitude" (PyFloat 0.5) "cm-2 s-1 TeV-1";
                      Param.make "index" (PyFloat 2.5) "";
                      Param.make "reference" (PyFloat 1) "TeV"].

(** A catalog entry whose [lambda_] is zero. *)
Definition zero_lambda_list : ParameterList.t :=
  ParameterList.init [Param.make "amplitude" (PyFloat 0.5) "cm-2 s-1 TeV-1";
                      Param.make "index" (PyFloat 2.5) "";
                      Param.make "lambda_" (PyFloat (-0)) "TeV-1"].

(** What [to_dict()] gives for a power law, values as strings. *)
Definition power_law_catalog : catalog_source :=
  mk_source [("common_name", CatStr "Crab"); ("morph_type", CatStr "point");
             ("glon", CatQuantity (mkQuantity 184.5 "deg"));
             ("glat", CatQuantity (mkQuantity (-5.75) "deg"))]
            (Some (mk_spectral_dict "PowerLaw"
                     [Param.mk_gammacat "index" (SStr "2.5") "";
                      Param.mk_gammacat "amplitude" (SStr "0.5") "cm-2 s-1 TeV-1";
                      Param.mk_gammacat "reference" (SNum (PyInt 1)) "TeV"]
                     "{'name': 'PowerLaw', ...}"))
            "Crab".

(** A source of a morphology the module does not know. *)
Definition ring_source : catalog_source :=
  mk_source [("morph_type", CatStr "ring")] None "SNR ring".

(** Two sources that differ in bounds, frozen flags and covariance
    only. *)
Definition bounded_source : SourceModel.t :=
  SourceModel.mk "Crab" "PointSource"
    (BaseModel.mk Point (ParameterList.mk [] (Some [])))
    (BaseModel.mk PowerLaw bounded_list).

Definition plain_source : SourceModel.t :=
  SourceModel.mk "Crab" "PointSource"
    (BaseModel.mk Point (ParameterList.init []))
    (BaseModel.mk PowerLaw plain_list).



(** A spectral shape the module does not know. *)
Definition log_parabola : spectral_dict :=
  mk_spectral_dict "LogParabola" [Param.mk_gammacat "alpha" (SStr "2.5") ""]
                   "{'name': 'LogParabola'}".

Definition log_parabola_source : catalog_source :=
  mk_source [] (Some log_parabola) "S1".

(** The same with a value that is not a number. *)
Definition unreadable : spectral_dict :=
  mk_spectral_dict "LogParabola"
                   [Param.mk_gammacat "alpha" (SStr "2.5") "";
                    Param.mk_gammacat "beta" (SStr "n/a") ""]
                   "{'name': 'LogParabola'}".

Definition unreadable_source : catalog_source :=
  mk_source [] (Some unreadable) "S2".

End More.

(** * Properties *)

(** ** Results and strings *)

Lemma bind_Ok {A B} (r : result A) (k : A -> result B) (b : B) :
  bind r k = Ok b -> exists a, r = Ok a /\ k a = Ok b.
Proof.
  destruct r as [a | e]; simpl; intros Hk.
  - exists a; split; [reflexivity | exact Hk].
  - discriminate Hk.
Qed.

(** Splits a hypothesis [x <- r ;; k = Ok b] into its two steps. *)
Ltac bind_inv H :=
  let a := fresh "a" in
  let Ha := fresh "Ha" in
  apply bind_Ok in H; destruct H as (a & Ha & H).

Lemma mapM_Forall2 {A B} (f : A -> result B) (l : list A) (l' : list B) :
  mapM f l = Ok l' <-> Forall2 (fun a b => f a = Ok b) l l'.
Proof.
  revert l'; induction l as [| a l IH]; intros l'; simpl.
  - split.
    + intros Heq; injection Heq as <-; constructor.
    + intros HF; inversion HF; reflexivity.
  - split.
    + intros Heq. bind_inv Heq. bind_inv Heq. injection Heq as <-.
      constructor; [assumption | now apply IH].
    + intros HF; inversion HF as [| ? b ? bs Hb Hbs]; subst.
      rewrite Hb; simpl. apply IH in Hbs. rewrite Hbs; reflexivity.
Qed.

Lemma append_assoc (a b c : string) : (a ++ b) ++ c = a ++ b ++ c.
Proof. induction a as [| x a IH]; simpl; [reflexivity | now rewrite IH]. Qed.

Lemma append_empty_r (a : string) : a ++ "" = a.
Proof. induction a as [| x a IH]; simpl; [reflexivity | now rewrite IH]. Qed.

Lemma contains_middle (a part b : string) : contains part (a ++ part ++ b).
Proof. exists a, b; reflexivity. Qed.

Lemma contains_end (a part : string) : contains part (a ++ part).
Proof. exists a, ""; now rewrite append_empty_r. Qed.

(** ** Numbers *)

Example py_inv_float_4 : py_inv (PyFloat 4) = Ok (PyFloat 0.25).
Proof. reflexivity. Qed.

Example py_inv_int_8 : py_inv (PyInt 8) = Ok (PyFloat 0.125).
Proof. vm_compute. reflexivity. Qed.

Example py_inv_negative_zero : py_inv (PyFloat (-0)) = Err ZeroDivisionError.
Proof. reflexivity. Qed.

Example py_eq_int_float : py_eq (PyInt 3) (PyFloat 3) = true.
Proof. vm_compute. reflexivity. Qed.

Example py_eq_int_float_half : py_eq (PyInt 0) (PyFloat 0.5) = false.
Proof. vm_compute. reflexivity. Qed.

(** The reference reader is correctly rounded on the literal of the
    specification's example. *)
Example reference_float_of_str :
  Reference.float_of_str "-2.3" = Some (-2.3)%float.
Proof. vm_compute. reflexivity. Qed.

(** ** ParameterList lookup *)

Lemma first_named_Some (name : string) (pars : list Param.t) (par : Param.t) :
  ParameterList.first_named name pars = Some par <->
  exists before after,
    pars = (before ++ par :: after)%list
    /\ Param.name par = name
    /\ Forall (fun q => Param.name q <> name) before.
Proof.
  induction pars as [| p pars IH]; simpl.
  - split; [discriminate |].
    intros (before & after & Heq & _); destruct before; discriminate Heq.
  - destruct (String.eqb_spec name (Param.name p)) as [Hname | Hname].
    + split.
      * intros Heq; injection Heq as <-.
        exists [], pars; repeat split; [now symmetry | constructor].
      * intros (before & after & Heq & Hpar & Hbefore).
        destruct before as [| q before]; simpl in Heq; injection Heq as -> Hrest.
        -- reflexivity.
        -- inversion Hbefore; subst; congruence.
    + rewrite IH; split.
      * intros (before & after & -> & Hpar & Hbefore).
        exists (p :: before), after; repeat split; [assumption |].
        constructor; [congruence | assumption].
      * intros (before & after & Heq & Hpar & Hbefore).
        destruct before as [| q before]; simpl in Heq; injection Heq as -> Hrest.
        -- congruence.
        -- exists before, after; inversion Hbefore; subst; auto.
Qed.

Lemma first_named_None (name : string) (pars : list Param.t) :
  ParameterList.first_named name pars = None <->
  Forall (fun q => Param.name q <> name) pars.
Proof.
  induction pars as [| p pars IH]; simpl.
  - split; [constructor | reflexivity].
  - destruct (String.eqb_spec name (Param.name p)) as [Hname | Hname].
    + split; [discriminate |].
      intros HF; inversion HF; subst; congruence.
    + rewrite IH; split.
      * intros HF; constructor; [congruence | assumption].
      * intros HF; now inversion HF.
Qed.

(** C5.  Indexing a ParameterList by a name returns the first parameter
    of that name: [getitem] answers [par] exactly when [par] carries the
    name and no parameter before it does.  When no parameter carries the
    name, it fails with an [IndexError] whose message contains both the
    name and the text [str] gives for the list. *)
Theorem getitem_first_or_not_found `{PyText} (pl : ParameterList.t) (name : string) :
  (forall par,
      ParameterList.getitem pl name = Ok par <->
      exists before after,
        ParameterList.parameters pl = (before ++ par :: after)%list
        /\ Param.name par = name
        /\ Forall (fun q => Param.name q <> name) before)
  /\ (Forall (fun q => Param.name q <> name) (ParameterList.parameters pl) ->
      exists msg,
        ParameterList.getitem pl name = Err (IndexError msg)
        /\ contains name msg
        /\ contains (ParameterList.str pl) msg).
Proof.
  split.
  - intros par. rewrite <- first_named_Some. unfold ParameterList.getitem.
    destruct (ParameterList.first_named name (ParameterList.parameters pl)).
    + split; intros Heq; injection Heq as <-; reflexivity.
    + split; discriminate.
  - intros Hnone. apply first_named_None in Hnone.
    unfold ParameterList.getitem; rewrite Hnone.
    eexists; split; [reflexivity | split].
    + apply contains_middle.
    + rewrite <- !append_assoc. apply contains_end.
Qed.

Lemma getitem_first_or_not_found_witness :
  ParameterList.getitem Sample.gauss_list "Sigma" = Ok Sample.sigma
  /\ exists msg,
      ParameterList.getitem Sample.gauss_list "Nope" = Err (IndexError msg)
      /\ contains "Nope" msg
      /\ contains (ParameterList.str Sample.gauss_list) msg.
Proof.
  split.
  - apply (proj1 (getitem_first_or_not_found Sample.gauss_list "Sigma")).
    exists [Sample.glon; Sample.glat], []. repeat split.
    repeat constructor; discriminate.
  - apply (proj2 (getitem_first_or_not_found Sample.gauss_list "Nope")).
    repeat constructor; discriminate.
Defined.

(** ** Parameter.from_dict_xml *)

(** C9.  On a dict with ['@name'] and ['@value'], [from_dict_xml] returns
    the parameter whose name is the ['@name'] string, whose value is the
    float read from the ['@value'] string and whose unit is the ['@unit']
    string, or the empty string when there is none.  In particular, with a
    [float] that reads ["-2.3"] as -2.3, the dict
    [{'@name': 'Index', '@value': '-2.3', '@unit': 'TeV-1'}] gives name
    Index, value -2.3 and unit TeV-1. *)
Theorem from_dict_xml_fields `{PyText} :
  (forall (attrs : dict string) (children : dict xval) (n v : string) (f : float),
      dict_get "name" attrs = Some n ->
      dict_get "value" attrs = Some v ->
      float_of_str v = Some f ->
      exists p,
        Param.from_dict_xml (XDict attrs children) = Ok p
        /\ Param.name p = n
        /\ Param.value p = PyFloat f
        /\ (forall u, dict_get "unit" attrs = Some u -> Param.unit p = u)
        /\ (dict_get "unit" attrs = None -> Param.unit p = ""))
  /\ (float_of_str "-2.3" = Some (-2.3)%float ->
      Param.from_dict_xml Sample.index_dict
      = Ok (Param.mk "Index" (PyFloat (-2.3)) "TeV-1" None None false)).
Proof.
  split.
  - intros attrs children n v f Hn Hv Hf.
    unfold Param.from_dict_xml, xattr, py_float.
    rewrite Hn, Hv; simpl. rewrite Hf; simpl.
    eexists; split; [reflexivity |]. simpl.
    repeat split.
    + intros u Hu. unfold dict_get_default. now rewrite Hu.
    + intros Hu. unfold dict_get_default. now rewrite Hu.
  - intros Hf. unfold Param.from_dict_xml, Sample.index_dict, xattr, py_float; simpl.
    rewrite Hf. reflexivity.
Qed.

Lemma from_dict_xml_fields_witness :
  Param.from_dict_xml Sample.index_dict
  = Ok (Param.mk "Index" (PyFloat (-2.3)) "TeV-1" None None false)
  /\ exists p,
      Param.from_dict_xml Sample.index_dict_no_unit = Ok p
      /\ Param.name p = "Index"
      /\ Param.value p = PyFloat (-2.3)
      /\ Param.unit p = "".
Proof.
  split.
  - apply (proj2 from_dict_xml_fields). vm_compute. reflexivity.
  - destruct (proj1 from_dict_xml_fields
                [("name", "Index"); ("value", "-2.3")] [] "Index" "-2.3" (-2.3)%float)
      as (p & Hp & Hname & Hvalue & _ & Hunit).
    + reflexivity.
    + reflexivity.
    + vm_compute. reflexivity.
    + exists p. repeat split; try assumption. apply Hunit. reflexivity.
Defined.

(** ** SpatialModelShell.from_gammacat *)

Lemma cat_parameter_Ok (name key : string) (d : dict catalog_value) (q : Quantity) :
  dict_get key d = Some (CatQuantity q) ->
  cat_parameter name key d = Ok (Param.make name (PyFloat (qvalue q)) (qunit q)).
Proof. unfold cat_parameter, cat_quantity. now intros ->. Qed.

(** C10.  For a catalog source whose data holds the quantities [glon],
    [glat] and [morph_sigma], [SpatialModelShell.from_gammacat] returns a
    shell whose parameters are exactly GLON, GLAT, Radius, Width in that
    order; Radius has the value and the unit of [morph_sigma], Width is
    the integer 0 in deg. *)
Theorem shell_from_gammacat_parameters (source : catalog_source)
    (glon glat sigma : Quantity) :
  dict_get "glon" (data source) = Some (CatQuantity glon) ->
  dict_get "glat" (data source) = Some (CatQuantity glat) ->
  dict_get "morph_sigma" (data source) = Some (CatQuantity sigma) ->
  exists m,
    SpatialModelShell.from_gammacat source = Ok m
    /\ BaseModel.class m = Shell
    /\ BaseModel.plist m
       = [Param.make "GLON" (PyFloat (qvalue glon)) (qunit glon);
          Param.make "GLAT" (PyFloat (qvalue glat)) (qunit glat);
          Param.make "Radius" (PyFloat (qvalue sigma)) (qunit sigma);
          Param.make "Width" (PyInt 0) "deg"].
Proof.
  intros Hglon Hglat Hsigma. unfold SpatialModelShell.from_gammacat.
  rewrite (cat_parameter_Ok "GLON" _ _ Hglon); simpl.
  rewrite (cat_parameter_Ok "GLAT" _ _ Hglat); simpl.
  rewrite (cat_parameter_Ok "Radius" _ _ Hsigma); simpl.
  eexists; repeat split.
Qed.

Lemma shell_from_gammacat_parameters_witness :
  exists m,
    SpatialModelShell.from_gammacat Sample.shell_source = Ok m
    /\ BaseModel.class m = Shell
    /\ BaseModel.plist m
       = [Param.make "GLON" (PyFloat 266.25) "deg";
          Param.make "GLAT" (PyFloat (-1.25)) "deg";
          Param.make "Radius" (PyFloat 0.3) "deg";
          Param.make "Width" (PyInt 0) "deg"].
Proof.
  apply (@shell_from_gammacat_parameters Sample.shell_source
           (mkQuantity 266.25 "deg") (mkQuantity (-1.25) "deg") (mkQuantity 0.3 "deg"));
    reflexivity.
Defined.

(** ** SpatialModel.from_xml_dict *)

(** C2.  When the ['@type'] of the dict is one of the tags of a spatial
    class, [SpatialModel.from_xml_dict] returns a model of that class
    whose parameter list is empty, whatever the dict holds besides: its
    children, the ['parameter'] entries among them, are never read. *)
Theorem spatial_from_xml_dict_no_parameters (attrs : dict string)
    (children : dict xval) (tag : string) (cls : spatial_class) :
  dict_get "type" attrs = Some tag ->
  str_in tag (SpatialModel.xml_types cls) = true ->
  SpatialModel.from_xml_dict (XDict attrs children)
  = Ok (BaseModel.mk cls (ParameterList.mk [] None)).
Proof.
  intros Htype Htag. unfold SpatialModel.from_xml_dict, xattr.
  rewrite Htype; simpl.
  destruct cls; simpl in Htag;
    repeat match type of Htag with
      | (_ || _)%bool = true => apply orb_true_iff in Htag; destruct Htag as [Htag | Htag]
      | String.eqb _ _ = true => apply String.eqb_eq in Htag; subst tag
      end;
    try discriminate; reflexivity.
Qed.

Lemma spatial_from_xml_dict_no_parameters_witness :
  SpatialModel.from_xml_dict Sample.radial_shell_dict
  = Ok (BaseModel.mk Shell (ParameterList.mk [] None)).
Proof.
  apply (@spatial_from_xml_dict_no_parameters
           [("type", "RadialShell")] _ "RadialShell" Shell); reflexivity.
Defined.

(** ** The from_plist constructors *)

(** C3.  [SpectralModelPowerLaw.from_plist] and
    [SpectralModelPowerLaw2.from_plist] give Index the negated value of
    the catalog parameter [index]; [SpectralModelExpCutoff.from_plist]
    gives Cutoff the value [1 / v] for the value [v] of [lambda_] and
    leaves its Index as it is.  Every output parameter has the unit of
    the catalog parameter it is made from. *)
Theorem from_plist_sign_and_inverse `{PyText} (plist : ParameterList.t) :
  (forall amplitude index reference,
      ParameterList.getitem plist "amplitude" = Ok amplitude ->
      ParameterList.getitem plist "index" = Ok index ->
      ParameterList.getitem plist "reference" = Ok reference ->
      exists m,
        SpectralModelPowerLaw.from_plist plist = Ok m
        /\ BaseModel.class m = PowerLaw
        /\ BaseModel.plist m
           = [Param.make "Prefactor" (Param.value amplitude) (Param.unit amplitude);
              Param.make "Index" (py_neg (Param.value index)) (Param.unit index);
              Param.make "Scale" (Param.value reference) (Param.unit reference)])
  /\ (forall amplitude index emin emax,
      ParameterList.getitem plist "amplitude" = Ok amplitude ->
      ParameterList.getitem plist "index" = Ok index ->
      ParameterList.getitem plist "emin" = Ok emin ->
      ParameterList.getitem plist "emax" = Ok emax ->
      exists m,
        SpectralModelPowerLaw2.from_plist plist = Ok m
        /\ BaseModel.class m = PowerLaw2
        /\ BaseModel.plist m
           = [Param.make "Integral" (Param.value amplitude) (Param.unit amplitude);
              Param.make "Index" (py_neg (Param.value index)) (Param.unit index);
              Param.make "LowerLimit" (Param.value emin) (Param.unit emin);
              Param.make "UpperLimit" (Param.value emax) (Param.unit emax)])
  /\ (forall amplitude index lambda reference inverse,
      ParameterList.getitem plist "amplitude" = Ok amplitude ->
      ParameterList.getitem plist "index" = Ok index ->
      ParameterList.getitem plist "lambda_" = Ok lambda ->
      ParameterList.getitem plist "reference" = Ok reference ->
      py_inv (Param.value lambda) = Ok inverse ->
      exists m,
        SpectralModelExpCutoff.from_plist plist = Ok m
        /\ BaseModel.class m = ExpCutoff
        /\ BaseModel.plist m
           = [Param.make "Prefactor" (Param.value amplitude) (Param.unit amplitude);
              Param.make "Index" (Param.value index) (Param.unit index);
              Param.make "Cutoff" inverse (Param.unit lambda);
              Param.make "Scale" (Param.value reference) (Param.unit reference)]).
Proof.
  repeat split.
  - intros amplitude index reference Ha Hi Hr.
    unfold SpectralModelPowerLaw.from_plist. rewrite Ha, Hi, Hr; simpl.
    eexists; repeat split.
  - intros amplitude index emin emax Ha Hi Hlo Hhi.
    unfold SpectralModelPowerLaw2.from_plist. rewrite Ha, Hi, Hlo, Hhi; simpl.
    eexists; repeat split.
  - intros amplitude index lambda reference inverse Ha Hi Hl Hr Hinv.
    unfold SpectralModelExpCutoff.from_plist. rewrite Ha, Hi, Hl; simpl.
    rewrite Hinv, Hr; simpl.
    eexists; repeat split.
Qed.

(** On floats, [py_neg] is the IEEE negation and [py_inv] the IEEE
    quotient of one by a divisor that does not compare equal to zero. *)
Lemma py_neg_float (f : float) : py_neg (PyFloat f) = PyFloat (- f).
Proof. reflexivity. Qed.

Lemma py_inv_float (f : float) :
  (f =? 0)%float = false -> py_inv (PyFloat f) = Ok (PyFloat (1 / f)).
Proof. simpl. now intros ->. Qed.

Lemma from_plist_sign_and_inverse_witness :
  (exists m,
      SpectralModelPowerLaw.from_plist Sample.ecpl_plist = Ok m
      /\ BaseModel.class m = PowerLaw
      /\ BaseModel.plist m
         = [Param.make "Prefactor" (PyFloat 0.5) "cm-2 s-1 TeV-1";
            Param.make "Index" (PyFloat (-2.5)) "";
            Param.make "Scale" (PyFloat 1) "TeV"])
  /\ (exists m,
      SpectralModelPowerLaw2.from_plist Sample.ecpl_plist = Ok m
      /\ BaseModel.class m = PowerLaw2
      /\ BaseModel.plist m
         = [Param.make "Integral" (PyFloat 0.5) "cm-2 s-1 TeV-1";
            Param.make "Index" (PyFloat (-2.5)) "";
            Param.make "LowerLimit" (PyFloat 1) "TeV";
            Param.make "UpperLimit" (PyFloat 10) "TeV"])
  /\ (exists m,
      SpectralModelExpCutoff.from_plist Sample.ecpl_plist = Ok m
      /\ BaseModel.class m = ExpCutoff
      /\ BaseModel.plist m
         = [Param.make "Prefactor" (PyFloat 0.5) "cm-2 s-1 TeV-1";
            Param.make "Index" (PyFloat 2.5) "";
            Param.make "Cutoff" (PyFloat 8) "TeV-1";
            Param.make "Scale" (PyFloat 1) "TeV"]).
Proof.
  destruct (from_plist_sign_and_inverse Sample.ecpl_plist) as (Hpl & Hpl2 & Hecpl).
  split; [| split].
  - apply (Hpl (Param.make "amplitude" (PyFloat 0.5) "cm-2 s-1 TeV-1")
               (Param.make "index" (PyFloat 2.5) "")
               (Param.make "reference" (PyFloat 1) "TeV")); reflexivity.
  - apply (Hpl2 (Param.make "amplitude" (PyFloat 0.5) "cm-2 s-1 TeV-1")
                (Param.make "index" (PyFloat 2.5) "")
                (Param.make "emin" (PyFloat 1) "TeV")
                (Param.make "emax" (PyFloat 10) "TeV")); reflexivity.
  - apply (Hecpl (Param.make "amplitude" (PyFloat 0.5) "cm-2 s-1 TeV-1")
                 (Param.make "index" (PyFloat 2.5) "")
                 (Param.make "lambda_" (PyFloat 0.125) "TeV-1")
                 (Param.make "reference" (PyFloat 1) "TeV")
                 (PyFloat 8)); reflexivity.
Defined.

(** ** SpectralModel.from_xml_dict *)

Lemma mapM_parameter_dict `{PyText} (triples : list (string * string * string))
    (values : list float) :
  Forall2 (fun t f => float_of_str (snd (fst t)) = Some f) triples values ->
  mapM Param.from_dict_xml (map parameter_dict triples)
  = Ok (map parameter_of (combine triples values)).
Proof.
  induction 1 as [| [[n v] u] f triples values Hf HF IH]; simpl.
  - reflexivity.
  - simpl in Hf. rewrite Hf; simpl. rewrite IH; reflexivity.
Qed.

(** C4, as the code has it.  With ['@type'] PowerLaw and a ['parameter']
    list of name, value, unit triples whose values read as floats,
    [SpectralModel.from_xml_dict] returns a [SpectralModelPowerLaw] whose
    parameters are those triples in the order given.  With a ['@type']
    that is none of the three known tags it fails with an
    [UnknownModelError] whose message ends with the tag, provided the
    ['parameter'] entry is there and is read without error: the
    parameters are read before the type is looked at. *)
Theorem spectral_from_xml_dict_dispatch `{PyText} :
  (forall (attrs : dict string) (children : dict xval)
          (triples : list (string * string * string)) (values : list float),
      dict_get "type" attrs = Some "PowerLaw" ->
      dict_get "parameter" children = Some (XList (map parameter_dict triples)) ->
      Forall2 (fun t f => float_of_str (snd (fst t)) = Some f) triples values ->
      SpectralModel.from_xml_dict (XDict attrs children)
      = Ok (BaseModel.mk PowerLaw
              (ParameterList.mk (map parameter_of (combine triples values)) None)))
  /\ (forall (data : xval) (tag : string) (plist : ParameterList.t),
      xattr "type" data = Ok tag ->
      registered_spectral tag = false ->
      (pdata <- xchild "parameter" data ;;
       ParameterList.from_list_of_dict_xml pdata) = Ok plist ->
      SpectralModel.from_xml_dict data
      = Err (UnknownModelError ("Unknown spatial model: " ++ tag))).
Proof.
  split.
  - intros attrs children triples values Htype Hpar Hvalues.
    unfold SpectralModel.from_xml_dict, xattr, xchild.
    rewrite Htype, Hpar; simpl.
    unfold ParameterList.from_list_of_dict_xml; simpl.
    rewrite (mapM_parameter_dict Hvalues); reflexivity.
  - intros data tag plist Htype Htag Hplist.
    unfold SpectralModel.from_xml_dict. rewrite Htype; simpl.
    bind_inv Hplist. rewrite Ha; simpl. rewrite Hplist; simpl.
    unfold registered_spectral, str_in in Htag; simpl in Htag.
    rewrite orb_false_r in Htag.
    apply orb_false_iff in Htag; destruct Htag as [-> Htag].
    apply orb_false_iff in Htag; destruct Htag as [-> ->].
    reflexivity.
Qed.

Lemma spectral_from_xml_dict_dispatch_witness :
  SpectralModel.from_xml_dict Sample.power_law_dict
  = Ok (BaseModel.mk PowerLaw
          (ParameterList.mk [Param.make "Prefactor" (PyFloat 0.5) "cm-2 s-1 TeV-1";
                             Param.make "Index" (PyFloat (-2.3)) "";
                             Param.make "Scale" (PyFloat 1) "TeV"] None))
  /\ SpectralModel.from_xml_dict Sample.bogus_dict_with_parameters
     = Err (UnknownModelError "Unknown spatial model: Bogus").
Proof.
  split.
  - apply (proj1 spectral_from_xml_dict_dispatch
             [("type", "PowerLaw")] _
             [("Prefactor", "0.5", "cm-2 s-1 TeV-1"); ("Index", "-2.3", "");
              ("Scale", "1", "TeV")]
             [0.5; -2.3; 1]%float).
    + reflexivity.
    + reflexivity.
    + repeat constructor.
  - apply (proj2 spectral_from_xml_dict_dispatch
             Sample.bogus_dict_with_parameters "Bogus"
             (ParameterList.init [Param.make "Index" (PyFloat (-2.3)) "";
                                  Param.make "Scale" (PyFloat 1) "TeV"])).
    + reflexivity.
    + reflexivity.
    + vm_compute. reflexivity.
Defined.

(** C4 as stated fails: the dict of [<spectrum type="Bogus"/>] has a type
    that is not registered, and the call ends in the [KeyError] of the
    missing ['parameter'] entry, not in an [UnknownModelError]. *)
Lemma spectral_from_xml_dict_bogus_KeyError :
  xattr "type" Sample.bogus_dict = Ok "Bogus"
  /\ registered_spectral "Bogus" = false
  /\ SpectralModel.from_xml_dict Sample.bogus_dict = Err (KeyError "parameter")
  /\ ~ (exists msg,
         SpectralModel.from_xml_dict Sample.bogus_dict = Err (UnknownModelError msg)).
Proof.
  repeat split. intros (msg & Hmsg). discriminate Hmsg.
Qed.

(** ** SourceModel.from_xml_dict *)

Lemma dict_mem_Some {V} (k : string) (d : dict V) (v : V) :
  dict_get k d = Some v -> dict_mem k d = true.
Proof. unfold dict_mem. now intros ->. Qed.

Lemma dict_mem_None {V} (k : string) (d : dict V) :
  dict_get k d = None -> dict_mem k d = false.
Proof. unfold dict_mem. now intros ->. Qed.

(** C8, as the code has it.  On a source dict whose ['@name'], ['@type']
    and ['spectrum'] are there and whose spectrum is accepted, the
    spatial model is built from the ['radialModel'] entry when there is
    one, otherwise from the ['spatialModel'] entry when there is one, and
    with neither the call fails with the [UnknownModelError] of the
    message "No spatial / radial model found for: " followed by the
    dict. *)
Theorem source_from_xml_dict_spatial_entry `{PyText} (attrs : dict string)
    (children : dict xval) (source_name source_type : string) (spectrum : xval)
    (spectral_model : SpectralModel.t) :
  dict_get "name" attrs = Some source_name ->
  dict_get "type" attrs = Some source_type ->
  dict_get "spectrum" children = Some spectrum ->
  SpectralModel.from_xml_dict spectrum = Ok spectral_model ->
  (forall radial,
      dict_get "radialModel" children = Some radial ->
      SourceModel.from_xml_dict (XDict attrs children)
      = (spatial_model <- SpatialModel.from_xml_dict radial ;;
         Ok (SourceModel.mk source_name source_type spatial_model spectral_model)))
  /\ (forall spatial,
      dict_get "radialModel" children = None ->
      dict_get "spatialModel" children = Some spatial ->
      SourceModel.from_xml_dict (XDict attrs children)
      = (spatial_model <- SpatialModel.from_xml_dict spatial ;;
         Ok (SourceModel.mk source_name source_type spatial_model spectral_model)))
  /\ (dict_get "radialModel" children = None ->
      dict_get "spatialModel" children = None ->
      SourceModel.from_xml_dict (XDict attrs children)
      = Err (UnknownModelError
               ("No spatial / radial model found for: "
                ++ str_of_xval (XDict attrs children)))).
Proof.
  intros Hname Htype Hspectrum Hspectral.
  unfold SourceModel.from_xml_dict, SourceModel.spatial_from_xml_dict, xattr, xchild.
  rewrite Hname, Htype, Hspectrum; simpl. rewrite Hspectral; simpl.
  repeat split.
  - intros radial Hradial.
    rewrite (dict_mem_Some _ _ Hradial), Hradial; reflexivity.
  - intros spatial Hradial Hspatial.
    rewrite (dict_mem_None _ _ Hradial), (dict_mem_Some _ _ Hspatial), Hspatial.
    reflexivity.
  - intros Hradial Hspatial.
    rewrite (dict_mem_None _ _ Hradial), (dict_mem_None _ _ Hspatial).
    reflexivity.
Qed.

Lemma source_from_xml_dict_spatial_entry_witness :
  (exists m,
      SourceModel.from_xml_dict (Sample.source_dict Sample.both_spatial) = Ok m
      /\ BaseModel.class (SourceModel.spatial_model m) = Shell)
  /\ (exists m,
      SourceModel.from_xml_dict (Sample.source_dict Sample.only_spatial) = Ok m
      /\ BaseModel.class (SourceModel.spatial_model m) = Point)
  /\ SourceModel.from_xml_dict (Sample.source_dict [])
     = Err (UnknownModelError
              ("No spatial / radial model found for: "
               ++ str_of_xval (Sample.source_dict []))).
Proof.
  pose (spectral := BaseModel.mk PowerLaw
          (ParameterList.mk [Param.make "Prefactor" (PyFloat 0.5) "cm-2 s-1 TeV-1";
                             Param.make "Index" (PyFloat (-2.3)) "";
                             Param.make "Scale" (PyFloat 1) "TeV"] None)).
  assert (Hspectral : SpectralModel.from_xml_dict Sample.power_law_dict = Ok spectral)
    by (vm_compute; reflexivity).
  split; [| split].
  - destruct (@source_from_xml_dict_spatial_entry _
                [("name", "Crab"); ("type", "PointSource")]
                (("spectrum", Sample.power_law_dict) :: Sample.both_spatial)
                "Crab" "PointSource" Sample.power_law_dict spectral
                eq_refl eq_refl eq_refl Hspectral) as (Hradial & _ & _).
    eexists; split.
    + unfold Sample.source_dict. rewrite (Hradial Sample.radial_shell_dict eq_refl).
      reflexivity.
    + reflexivity.
  - destruct (@source_from_xml_dict_spatial_entry _
                [("name", "Crab"); ("type", "PointSource")]
                (("spectrum", Sample.power_law_dict) :: Sample.only_spatial)
                "Crab" "PointSource" Sample.power_law_dict spectral
                eq_refl eq_refl eq_refl Hspectral) as (_ & Hspatial & _).
    eexists; split.
    + unfold Sample.source_dict.
      rewrite (Hspatial (XDict [("type", "Point")] []) eq_refl eq_refl).
      reflexivity.
    + reflexivity.
  - destruct (@source_from_xml_dict_spatial_entry _
                [("name", "Crab"); ("type", "PointSource")]
                [("spectrum", Sample.power_law_dict)]
                "Crab" "PointSource" Sample.power_law_dict spectral
                eq_refl eq_refl eq_refl Hspectral) as (_ & _ & Hneither).
    exact (Hneither eq_refl eq_refl).
Defined.

(** C8 as stated fails: the dict of
    [<source name="Crab" type="PointSource"/>] has neither spatial entry,
    and the call ends in the [KeyError] of the missing ['spectrum'], not
    in an [UnknownModelError]. *)
Lemma source_from_xml_dict_bare_KeyError :
  xchild "radialModel" Sample.bare_source_dict = Err (KeyError "radialModel")
  /\ xchild "spatialModel" Sample.bare_source_dict = Err (KeyError "spatialModel")
  /\ SourceModel.from_xml_dict Sample.bare_source_dict = Err (KeyError "spectrum")
  /\ ~ (exists msg,
         SourceModel.from_xml_dict Sample.bare_source_dict
         = Err (UnknownModelError msg)).
Proof.
  repeat split. intros (msg & Hmsg). discriminate Hmsg.
Qed.

(** ** ParameterList.set_parameter_errors *)

Lemma nth_error_seq_lt (start len i : nat) :
  (i < len)%nat -> nth_error (seq start len) i = Some (start + i)%nat.
Proof.
  revert start i; induction len as [| len IH]; intros start i Hi; [lia |].
  destruct i as [| i]; simpl.
  - f_equal; lia.
  - rewrite IH by lia. f_equal; lia.
Qed.

Lemma nth_error_combine_seq {A} (start : nat) (l : list A) (i : nat) (x : A) :
  nth_error l i = Some x ->
  nth_error (combine (seq start (List.length l)) l) i = Some ((start + i)%nat, x).
Proof.
  revert start i; induction l as [| y l IH]; intros start i Hx.
  - destruct i; discriminate Hx.
  - destruct i as [| i]; simpl in *.
    + injection Hx as ->. do 2 f_equal; lia.
    + rewrite (IH (S start) i Hx). do 2 f_equal; lia.
Qed.

Lemma np_square_diag_entry (values : list float) (i j : nat) (x : float) :
  nth_error values i = Some x ->
  (j < List.length values)%nat ->
  entry (np_square (np_diag values)) i j
  = Some (if Nat.eqb i j then (x * x)%float else 0%float).
Proof.
  intros Hx Hj. unfold entry, np_square, np_diag.
  rewrite nth_error_map, nth_error_map.
  rewrite (nth_error_combine_seq 0 _ _ Hx); simpl.
  rewrite nth_error_map, nth_error_map, (nth_error_seq_lt 0 Hj); simpl.
  destruct (Nat.eqb i j); reflexivity.
Qed.

Lemma np_square_diag_diagonal (values : list float) :
  diagonal_matrix (np_square (np_diag values))
                  (map (fun x => (x * x)%float) values).
Proof.
  unfold diagonal_matrix. rewrite !length_map. repeat split.
  - unfold np_square, np_diag.
    rewrite !length_map, length_combine, length_seq. lia.
  - unfold np_square, np_diag. rewrite Forall_forall. intros row Hrow.
    apply in_map_iff in Hrow; destruct Hrow as (row' & <- & Hrow).
    apply in_map_iff in Hrow; destruct Hrow as (iv & <- & _).
    now rewrite !length_map, length_seq.
  - intros i j x Hx Hj. rewrite nth_error_map in Hx.
    destruct (nth_error values i) as [y |] eqn:Hy; [| discriminate Hx].
    injection Hx as <-. now apply np_square_diag_entry.
Qed.

Lemma error_value_in_unit `{Astropy} (errors : dict Quantity) (par : Param.t)
    (e : float) :
  (exists u, Unit (Param.unit par) = Ok u) ->
  (forall s u, Unit s = Ok u ->
               exists q', quantity_to (mkQuantity 0 u) s = Ok q' /\ qvalue q' = 0%float) ->
  error_in_unit errors par e ->
  ParameterList.error_value errors par = Ok e.
Proof.
  intros (u & Hu) Hzero He. unfold ParameterList.error_value, error_in_unit in *.
  rewrite Hu; simpl. unfold dict_get_default.
  destruct (dict_get (Param.name par) errors) as [q |].
  - destruct He as (q' & -> & ->). reflexivity.
  - destruct (Hzero _ _ Hu) as (q' & -> & Hq'). simpl. now rewrite Hq', He.
Qed.

(** C6.  Given parameters whose units astropy knows, and an astropy that
    converts a zero to zero, [set_parameter_errors] keeps the parameters
    and sets the covariance to the diagonal matrix of the squared errors,
    where the error of a parameter is its entry of the mapping converted
    to the unit of the parameter, and zero for a parameter without entry.
    In particular, when a quantity converts to its own unit unchanged,
    the list [amplitude = 10 cm-2 s-1, index = 2] with the errors
    [{amplitude: 1 cm-2 s-1}] gets the covariance diag([1, 0]). *)
Theorem set_parameter_errors_covariance `{Astropy} :
  (forall (pl : ParameterList.t) (errors : dict Quantity) (values : list float),
      Forall (fun par => exists u, Unit (Param.unit par) = Ok u)
             (ParameterList.parameters pl) ->
      (forall s u, Unit s = Ok u ->
                   exists q', quantity_to (mkQuantity 0 u) s = Ok q'
                              /\ qvalue q' = 0%float) ->
      Forall2 (error_in_unit errors) (ParameterList.parameters pl) values ->
      exists m,
        ParameterList.set_parameter_errors pl errors
        = Ok (ParameterList.mk (ParameterList.parameters pl) (Some m))
        /\ diagonal_matrix m (map (fun e => (e * e)%float) values))
  /\ (Unit "cm-2 s-1" = Ok "cm-2 s-1" ->
      Unit "" = Ok "" ->
      (forall q, quantity_to q (qunit q) = Ok q) ->
      ParameterList.set_parameter_errors Sample.amplitude_index Sample.amplitude_error
      = Ok (ParameterList.mk (ParameterList.parameters Sample.amplitude_index)
                             (Some [[1; 0]; [0; 0]]%float))).
Proof.
  split.
  - intros pl errors values Hunits Hzero Herrors.
    exists (np_square (np_diag values)). split; [| apply np_square_diag_diagonal].
    unfold ParameterList.set_parameter_errors.
    assert (Hmap : mapM (ParameterList.error_value errors) (ParameterList.parameters pl)
                   = Ok values).
    { apply mapM_Forall2.
      induction Herrors as [| par e pars values' He HF IH]; constructor.
      - inversion Hunits; subst. now apply error_value_in_unit.
      - inversion Hunits; subst. now apply IH. }
    rewrite Hmap; reflexivity.
  - intros Hcm Hnone Hid.
    unfold ParameterList.set_parameter_errors, ParameterList.error_value,
      Sample.amplitude_error, dict_get_default; simpl.
    pose proof (Hid (mkQuantity 1 "cm-2 s-1")) as Hamplitude.
    pose proof (Hid (mkQuantity 0 "")) as Hindex.
    simpl in Hamplitude, Hindex.
    rewrite Hcm; simpl. rewrite Hamplitude; simpl.
    rewrite Hnone; simpl. rewrite Hindex; simpl.
    reflexivity.
Qed.

Lemma set_parameter_errors_covariance_witness :
  ParameterList.set_parameter_errors Sample.amplitude_index Sample.amplitude_error
  = Ok (ParameterList.mk (ParameterList.parameters Sample.amplitude_index)
                         (Some [[1; 0]; [0; 0]]%float))
  /\ exists m,
      ParameterList.set_parameter_errors Sample.gauss_list [("Sigma", mkQuantity 0.5 "deg")]
      = Ok (ParameterList.mk (ParameterList.parameters Sample.gauss_list) (Some m))
      /\ diagonal_matrix m [0; 0; 0.25]%float.
Proof.
  split.
  - apply (proj2 set_parameter_errors_covariance).
    + reflexivity.
    + reflexivity.
    + intros q. simpl. now rewrite String.eqb_refl.
  - apply (proj1 set_parameter_errors_covariance
             Sample.gauss_list [("Sigma", mkQuantity 0.5 "deg")] [0; 0; 0.5]%float).
    + repeat constructor; eexists; reflexivity.
    + intros s u Hu. injection Hu as <-. simpl. rewrite String.eqb_refl.
      eexists; split; reflexivity.
    + repeat constructor. simpl. eexists; split; reflexivity.
Defined.

(** ** ParameterList._ufloats *)




(** ** The round trip through XML *)

Lemma spatial_from_xml_dict_plist (data : xval) (m : SpatialModel.t) :
  SpatialModel.from_xml_dict data = Ok m -> BaseModel.plist m = [].
Proof.
  unfold SpatialModel.from_xml_dict. intros Hm. bind_inv Hm.
  repeat match type of Hm with
    | (if ?c then _ else _) = _ => destruct c
    end;
    try discriminate Hm; injection Hm as <-; reflexivity.
Qed.

Lemma source_from_xml_dict_spatial_plist `{PyText} (data : xval) (s : SourceModel.t) :
  SourceModel.from_xml_dict data = Ok s ->
  BaseModel.plist (SourceModel.spatial_model s) = [].
Proof.
  unfold SourceModel.from_xml_dict. intros Hs.
  do 4 bind_inv Hs.
  apply bind_Ok in Hs; destruct Hs as (spatial & Hspatial & Hs).
  injection Hs as <-. simpl.
  unfold SourceModel.spatial_from_xml_dict in Hspatial.
  destruct data as [| | | attrs children]; try discriminate Hspatial.
  destruct (dict_mem "radialModel" children).
  - apply bind_Ok in Hspatial; destruct Hspatial as (radial & _ & Hspatial).
    exact (spatial_from_xml_dict_plist _ Hspatial).
  - destruct (dict_mem "spatialModel" children); [| discriminate Hspatial].
    apply bind_Ok in Hspatial; destruct Hspatial as (entry' & _ & Hspatial).
    exact (spatial_from_xml_dict_plist _ Hspatial).
Qed.

Lemma from_xml_spatial_plist `{PyText} `{XmlToDict} (xml : string)
    (lib : SourceLibrary.t) :
  SourceLibrary.from_xml xml = Ok lib ->
  Forall (fun s => BaseModel.plist (SourceModel.spatial_model s) = [])
         (SourceLibrary.source_list lib).
Proof.
  unfold SourceLibrary.from_xml, SourceLibrary.from_list_of_dict. intros Hlib.
  do 3 bind_inv Hlib.
  apply bind_Ok in Hlib; destruct Hlib as (items & _ & Hlib).
  apply bind_Ok in Hlib; destruct Hlib as (sources & Hsources & Hlib).
  injection Hlib as <-. simpl.
  apply mapM_Forall2 in Hsources.
  induction Hsources as [| data s items sources Hs _ IH]; constructor.
  - exact (source_from_xml_dict_spatial_plist _ Hs).
  - exact IH.
Qed.

(** C1 fails on the code.  Whatever the XML reader and the text
    conversions are, a library read back from the XML written for [lib]
    has no parameters in its spatial models, so it differs from [lib] as
    soon as one spatial model of [lib] has a parameter. *)
Theorem roundtrip_loses_spatial_parameters `{PyText} `{XmlToDict}
    (lib lib' : SourceLibrary.t) (title header : string) :
  Exists (fun s => BaseModel.plist (SourceModel.spatial_model s) <> [])
         (SourceLibrary.source_list lib) ->
  SourceLibrary.from_xml (SourceLibrary.to_xml lib title header) = Ok lib' ->
  Forall (fun s => BaseModel.plist (SourceModel.spatial_model s) = [])
         (SourceLibrary.source_list lib')
  /\ ~ same_library lib lib'.
Proof.
  intros Hsome Hread. apply from_xml_spatial_plist in Hread.
  split; [exact Hread |].
  unfold same_library. intros Hsame.
  induction Hsame as [| s s' l l' Hs Hl IH].
  - inversion Hsome.
  - inversion Hread as [| ? ? Hs' Hl']; subst.
    inversion Hsome as [? ? Hhere | ? ? Hlater]; subst.
    + destruct Hs as (_ & _ & _ & Hspatial). rewrite Hs' in Hspatial.
      inversion Hspatial as [Hnil |]. symmetry in Hnil. contradiction.
    + now apply IH.
Qed.

Lemma roundtrip_loses_spatial_parameters_witness :
  SourceLibrary.from_xml (SourceLibrary.to_xml_default Sample.two_sources)
  = Ok Sample.two_sources_read_back
  /\ Forall (fun s => BaseModel.plist (SourceModel.spatial_model s) = [])
            (SourceLibrary.source_list Sample.two_sources_read_back)
  /\ ~ same_library Sample.two_sources Sample.two_sources_read_back.
Proof.
  assert (Hread : SourceLibrary.from_xml
                    (SourceLibrary.to_xml Sample.two_sources "sources" nl)
                  = Ok Sample.two_sources_read_back)
    by (vm_compute; reflexivity).
  split; [exact Hread |].
  apply (@roundtrip_loses_spatial_parameters _ _
           Sample.two_sources Sample.two_sources_read_back "sources" nl).
  - apply Exists_cons_hd. discriminate.
  - exact Hread.
Defined.

(** ** The catalog path *)

(** Every parameter read from the catalog has a float value: the ones
    [from_plist] negates and inverts are floats. *)
Lemma from_list_of_dict_gammacat_floats `{PyText}
    (entries : list Param.gammacat_dict) (plist : ParameterList.t) :
  ParameterList.from_list_of_dict_gammacat entries = Ok plist ->
  Forall (fun p => exists f, Param.value p = PyFloat f)
         (ParameterList.parameters plist).
Proof.
  unfold ParameterList.from_list_of_dict_gammacat. intros Hplist.
  apply bind_Ok in Hplist; destruct Hplist as (pars & Hpars & Hplist).
  injection Hplist as <-. simpl.
  apply mapM_Forall2 in Hpars.
  induction Hpars as [| entry' p entries pars Hp _ IH]; constructor; [| exact IH].
  unfold Param.from_dict_gammacat in Hp.
  apply bind_Ok in Hp; destruct Hp as (f & _ & Hp).
  injection Hp as <-. exists f. reflexivity.
Qed.

(** [SpectralModel.from_gammacat] hands the catalog parameters to the
    [from_plist] of the class the catalog names. *)
Lemma spectral_from_gammacat_dispatch `{PyText} (source : catalog_source)
    (d : spectral_dict) (plist : ParameterList.t) :
  spectral_model_to_dict source = Some d ->
  ParameterList.from_list_of_dict_gammacat (sd_parameters d) = Ok plist ->
  (sd_name d = "PowerLaw" ->
   SpectralModel.from_gammacat source = SpectralModelPowerLaw.from_plist plist)
  /\ (sd_name d = "PowerLaw2" ->
      SpectralModel.from_gammacat source = SpectralModelPowerLaw2.from_plist plist)
  /\ (sd_name d = "ExponentialCutoffPowerLaw" ->
      SpectralModel.from_gammacat source = SpectralModelExpCutoff.from_plist plist).
Proof.
  intros Hd Hplist. unfold SpectralModel.from_gammacat.
  rewrite Hd, Hplist; simpl.
  repeat split; intros ->; reflexivity.
Qed.

(** ** Runs of the reference implementation *)

(** The reference reader follows xmltodict in leaving a single child a
    dict: the library of one source is then iterated by its keys, and the
    first key is subscripted as if it were the dict of a source. *)
Example one_source_read_back :
  SourceLibrary.from_xml
    (SourceLibrary.to_xml_default (SourceLibrary.mk [Sample.crab]))
  = Err TypeError.
Proof. vm_compute. reflexivity. Qed.

(** The empty library is written without any [source] element. *)
Example no_source_read_back :
  SourceLibrary.from_xml (SourceLibrary.to_xml_default (SourceLibrary.mk []))
  = Err (KeyError "source").
Proof. vm_compute. reflexivity. Qed.

(** * Further properties of the code *)

(** ** Reading parameters *)

Lemma mapM_first_error {A B} (f : A -> result B) (before : list A) (bad : A)
    (after : list A) (e : pyerr) :
  Forall (fun a => exists b, f a = Ok b) before ->
  f bad = Err e ->
  mapM f (before ++ bad :: after) = Err e.
Proof.
  intros Hbefore Hbad. induction Hbefore as [| a before (b & Hb) _ IH]; simpl.
  - now rewrite Hbad.
  - rewrite Hb; simpl. now rewrite IH.
Qed.

(** X1.  The failures of [Parameter.from_dict_xml], in the order the code
    meets them: anything that is not a dict has no [get] and gives
    [AttributeError]; a dict without ['@name'] gives [KeyError('@name')],
    whatever else it holds; with a name and no ['@value'] it gives
    [KeyError('@value')]; with both and a value that [float] does not
    read it gives a [ValueError].  A missing ['@unit'] never fails. *)
Theorem from_dict_xml_failures `{PyText} :
  Param.from_dict_xml XNone = Err AttributeError
  /\ (forall s, Param.from_dict_xml (XStr s) = Err AttributeError)
  /\ (forall l, Param.from_dict_xml (XList l) = Err AttributeError)
  /\ (forall attrs children,
         dict_get "name" attrs = None ->
         Param.from_dict_xml (XDict attrs children) = Err (KeyError "@name"))
  /\ (forall attrs children n,
         dict_get "name" attrs = Some n ->
         dict_get "value" attrs = None ->
         Param.from_dict_xml (XDict attrs children) = Err (KeyError "@value"))
  /\ (forall attrs children n v,
         dict_get "name" attrs = Some n ->
         dict_get "value" attrs = Some v ->
         float_of_str v = None ->
         exists msg, Param.from_dict_xml (XDict attrs children) = Err (ValueError msg)).
Proof.
  repeat split; try reflexivity.
  - intros attrs children Hname.
    unfold Param.from_dict_xml, xattr. now rewrite Hname.
  - intros attrs children n Hname Hvalue.
    unfold Param.from_dict_xml, xattr. rewrite Hname; simpl. now rewrite Hvalue.
  - intros attrs children n v Hname Hvalue Hfloat.
    unfold Param.from_dict_xml, xattr, py_float.
    rewrite Hname; simpl. rewrite Hvalue; simpl. rewrite Hfloat; simpl.
    eexists; reflexivity.
Qed.

Lemma from_dict_xml_failures_witness :
  Param.from_dict_xml (XDict [("value", "1.0"); ("unit", "TeV")] [])
  = Err (KeyError "@name")
  /\ Param.from_dict_xml (XDict [("name", "Scale"); ("unit", "TeV")] [])
     = Err (KeyError "@value")
  /\ exists msg,
      Param.from_dict_xml (XDict [("name", "Scale"); ("value", "one")] [])
      = Err (ValueError msg).
Proof.
  destruct (@from_dict_xml_failures Reference.text)
    as (_ & _ & _ & Hname & Hvalue & Hfloat).
  split; [| split].
  - apply Hname. reflexivity.
  - apply (Hvalue _ _ "Scale"); reflexivity.
  - apply (Hfloat _ _ "Scale" "one"); reflexivity.
Defined.

(** X2.  [ParameterList.from_list_of_dict_xml] on a list: it succeeds
    exactly when every entry reads as a parameter, and then returns those
    parameters in the order of the entries, with no covariance; when an
    entry fails after entries that read, the call fails with the error of
    that entry. *)
Theorem from_list_of_dict_xml_list `{PyText} (items : list xval) :
  (forall plist,
      ParameterList.from_list_of_dict_xml (XList items) = Ok plist <->
      Forall2 (fun d p => Param.from_dict_xml d = Ok p)
              items (ParameterList.parameters plist)
      /\ ParameterList.covariance plist = None)
  /\ (forall before bad after e,
         items = (before ++ bad :: after)%list ->
         Forall (fun d => exists p, Param.from_dict_xml d = Ok p) before ->
         Param.from_dict_xml bad = Err e ->
         ParameterList.from_list_of_dict_xml (XList items) = Err e).
Proof.
  split.
  - intros plist. unfold ParameterList.from_list_of_dict_xml; simpl. split.
    + intros Hread.
      apply bind_Ok in Hread; destruct Hread as (pars & Hpars & Hread).
      injection Hread as <-. simpl. split; [now apply mapM_Forall2 | reflexivity].
    + intros (Hpars & Hcov). apply mapM_Forall2 in Hpars. rewrite Hpars; simpl.
      destruct plist as [pars cov]; simpl in *. now rewrite Hcov.
  - intros before bad after e -> Hbefore Hbad.
    unfold ParameterList.from_list_of_dict_xml; simpl.
    now rewrite (mapM_first_error _ _ after Hbefore Hbad).
Qed.

Lemma from_list_of_dict_xml_list_witness :
  ParameterList.from_list_of_dict_xml
    (XList [Sample.index_dict; XDict [("name", "Scale"); ("unit", "TeV")] [];
            XNone])
  = Err (KeyError "@value").
Proof.
  apply (proj2 (from_list_of_dict_xml_list
                  [Sample.index_dict; XDict [("name", "Scale"); ("unit", "TeV")] [];
                   XNone])
           [Sample.index_dict] (XDict [("name", "Scale"); ("unit", "TeV")] [])
           [XNone] (KeyError "@value")).
  - reflexivity.
  - repeat constructor. eexists. vm_compute. reflexivity.
  - reflexivity.
Defined.

(** X3.  Given a single dict where a list of dicts is expected, as
    xmltodict returns for an element with one [parameter] child,
    [from_list_of_dict_xml] walks the keys of the dict and fails with
    [AttributeError] on the first, a string; given [None] it fails with
    [TypeError]. *)
Theorem from_list_of_dict_xml_not_a_list `{PyText} :
  (forall attrs children,
      attrs <> [] \/ children <> [] ->
      ParameterList.from_list_of_dict_xml (XDict attrs children) = Err AttributeError)
  /\ ParameterList.from_list_of_dict_xml XNone = Err TypeError.
Proof.
  split; [| reflexivity].
  intros attrs children Hsome. unfold ParameterList.from_list_of_dict_xml; simpl.
  destruct attrs as [| kv attrs]; simpl; [| reflexivity].
  destruct children as [| kv children]; simpl; [| reflexivity].
  destruct Hsome as [Hnil | Hnil]; now elim Hnil.
Qed.

Lemma from_list_of_dict_xml_not_a_list_witness :
  ParameterList.from_list_of_dict_xml Sample.index_dict = Err AttributeError.
Proof.
  apply (proj1 from_list_of_dict_xml_not_a_list). left. discriminate.
Defined.

(** ** Dispatch on the type tag *)

(** X4.  [SpectralModel.from_xml_dict] returns a model exactly when the
    ['@type'] of the dict is the [xml_type] of the class of that model
    and the ['parameter'] entry reads as its parameter list: the tag
    [to_xml] writes for a class is read back as that class and no other
    spelling is accepted. *)
Theorem spectral_from_xml_dict_class `{PyText} (data : xval) (m : SpectralModel.t) :
  SpectralModel.from_xml_dict data = Ok m <->
  xattr "type" data = Ok (SpectralModel.xml_type (BaseModel.class m))
  /\ (pdata <- xchild "parameter" data ;;
      ParameterList.from_list_of_dict_xml pdata) = Ok (BaseModel.parameters m).
Proof.
  unfold SpectralModel.from_xml_dict. split.
  - intros Hm.
    apply bind_Ok in Hm; destruct Hm as (tag & Htag & Hm).
    apply bind_Ok in Hm; destruct Hm as (pdata & Hpdata & Hm).
    apply bind_Ok in Hm; destruct Hm as (plist & Hplist & Hm).
    rewrite Hpdata; simpl. rewrite Hplist, Htag.
    destruct (String.eqb_spec tag SpectralModelPowerLaw.xml_type) as [-> |];
      [injection Hm as <-; split; reflexivity |].
    destruct (String.eqb_spec tag SpectralModelPowerLaw2.xml_type) as [-> |];
      [injection Hm as <-; split; reflexivity |].
    destruct (String.eqb_spec tag SpectralModelExpCutoff.xml_type) as [-> |];
      [injection Hm as <-; split; reflexivity | discriminate Hm].
  - intros (Htag & Hplist). rewrite Htag; simpl.
    apply bind_Ok in Hplist; destruct Hplist as (pdata & Hpdata & Hplist).
    rewrite Hpdata; simpl. rewrite Hplist; simpl.
    destruct m as [[| |] plist]; reflexivity.
Qed.

(** X5.  The outcomes of [SpatialModel.from_xml_dict].  With a ['@type']
    it returns a model exactly when the tag is in the [xml_types] of the
    class of that model, alias or not, and the model has the empty
    parameter list; with a tag that no class lists it fails with the
    [UnknownModelError] that ends with the tag, whatever the dict holds
    besides; without ['@type'] it fails with [KeyError('@type')]. *)
Theorem spatial_from_xml_dict_outcomes :
  (forall attrs children tag m,
      dict_get "type" attrs = Some tag ->
      (SpatialModel.from_xml_dict (XDict attrs children) = Ok m <->
       str_in tag (SpatialModel.xml_types (BaseModel.class m)) = true
       /\ BaseModel.parameters m = ParameterList.mk [] None))
  /\ (forall attrs children tag,
         dict_get "type" attrs = Some tag ->
         (forall cls, str_in tag (SpatialModel.xml_types cls) = false) ->
         SpatialModel.from_xml_dict (XDict attrs children)
         = Err (UnknownModelError ("Unknown spatial model: " ++ tag)))
  /\ (forall attrs children,
         dict_get "type" attrs = None ->
         SpatialModel.from_xml_dict (XDict attrs children) = Err (KeyError "@type")).
Proof.
  split; [| split].
  - intros attrs children tag m Htype. split.
    + unfold SpatialModel.from_xml_dict, xattr. rewrite Htype; simpl. intros Hm.
      repeat match type of Hm with
        | (if ?c then _ else _) = _ => destruct c eqn:?
        end;
        try discriminate Hm; injection Hm as <-; split; (assumption || reflexivity).
    + intros (Hin & Hpars). destruct m as [cls pl]; simpl in *. subst pl.
      unfold SpatialModel.from_xml_dict, xattr. rewrite Htype; simpl.
      destruct cls; simpl in Hin;
        repeat match type of Hin with
          | (_ || _)%bool = true =>
              apply orb_true_iff in Hin; destruct Hin as [Hin | Hin]
          | String.eqb _ _ = true => apply String.eqb_eq in Hin; subst tag
          end;
        try discriminate; reflexivity.
  - intros attrs children tag Htype Hnone.
    unfold SpatialModel.from_xml_dict, xattr. rewrite Htype; cbn [bind].
    rewrite (Hnone Point : str_in tag SpatialModelPoint.xml_types = false).
    rewrite (Hnone Gauss : str_in tag SpatialModelGauss.xml_types = false).
    rewrite (Hnone Shell : str_in tag SpatialModelShell.xml_types = false).
    reflexivity.
  - intros attrs children Htype.
    unfold SpatialModel.from_xml_dict, xattr. now rewrite Htype.
Qed.

Lemma spatial_from_xml_dict_outcomes_witness :
  SpatialModel.from_xml_dict (XDict [("type", "Gaussian")] [])
  = Ok (BaseModel.mk Gauss (ParameterList.mk [] None))
  /\ SpatialModel.from_xml_dict (XDict [("type", "PowerLaw")] [])
     = Err (UnknownModelError "Unknown spatial model: PowerLaw")
  /\ SpatialModel.from_xml_dict (XDict [("title", "sources")] [])
     = Err (KeyError "@type").
Proof.
  destruct spatial_from_xml_dict_outcomes as (Hok & Hunknown & Hmissing).
  split; [| split].
  - apply (Hok [("type", "Gaussian")] [] "Gaussian"); [reflexivity |].
    split; reflexivity.
  - apply (Hunknown [("type", "PowerLaw")] [] "PowerLaw"); [reflexivity |].
    intros cls; destruct cls; reflexivity.
  - apply Hmissing. reflexivity.
Defined.

(** X6.  A spatial model read from a dict is written back by [to_xml] as
    a [spatialModel] element with the [xml_type] of its class and no
    parameter line: an alias such as Gaussian or RadialShell comes back
    as Gauss or Shell, and the parameters of the element that was read
    are gone. *)
Theorem spatial_read_then_written `{PyText} (data : xval) (m : SpatialModel.t) :
  SpatialModel.from_xml_dict data = Ok m ->
  SpatialModel.to_xml m
  = "<spatialModel type=" ++ dq ++ SpatialModel.xml_type (BaseModel.class m) ++ dq
    ++ ">" ++ nl ++ nl ++ "    </spatialModel>".
Proof.
  intros Hm. apply spatial_from_xml_dict_plist in Hm.
  unfold SpatialModel.to_xml, ParameterList.to_xml.
  unfold BaseModel.plist in Hm. rewrite Hm. reflexivity.
Qed.

Lemma spatial_read_then_written_witness :
  exists m,
    SpatialModel.from_xml_dict Sample.radial_shell_dict = Ok m
    /\ SpatialModel.to_xml m
       = "<spatialModel type=" ++ dq ++ "Shell" ++ dq ++ ">" ++ nl ++ nl
         ++ "    </spatialModel>".
Proof.
  exists (BaseModel.mk Shell (ParameterList.mk [] None)).
  split; [reflexivity |].
  apply (@spatial_read_then_written Reference.text Sample.radial_shell_dict).
  reflexivity.
Defined.

(** ** From the catalog *)

(** X7.  [SpatialModel.from_gammacat] builds the class the [morph_type]
    of the source names: point gives [SpatialModelPoint] with GLON and
    GLAT, gauss gives [SpatialModelGauss] with GLON, GLAT and Sigma, shell
    gives [SpatialModelShell] with GLON, GLAT, Radius and Width.  The
    values and units are those of [glon], [glat] and [morph_sigma]; a
    point source needs no [morph_sigma]. *)
Theorem spatial_from_gammacat_dispatch (source : catalog_source)
    (cls : spatial_class) (glon glat sigma : Quantity) :
  dict_get "morph_type" (data source) = Some (CatStr (morph_type_of cls)) ->
  dict_get "glon" (data source) = Some (CatQuantity glon) ->
  dict_get "glat" (data source) = Some (CatQuantity glat) ->
  (cls <> Point -> dict_get "morph_sigma" (data source) = Some (CatQuantity sigma)) ->
  SpatialModel.from_gammacat source
  = Ok (BaseModel.mk cls
          (ParameterList.mk (spatial_parameters cls glon glat sigma) None)).
Proof.
  intros Hmorph Hglon Hglat Hsigma.
  unfold SpatialModel.from_gammacat, cat_equals. rewrite Hmorph.
  destruct cls; simpl.
  - unfold SpatialModelPoint.from_gammacat.
    rewrite (cat_parameter_Ok "GLON" _ _ Hglon); simpl.
    rewrite (cat_parameter_Ok "GLAT" _ _ Hglat); reflexivity.
  - unfold SpatialModelGauss.from_gammacat.
    rewrite (cat_parameter_Ok "GLON" _ _ Hglon); simpl.
    rewrite (cat_parameter_Ok "GLAT" _ _ Hglat); simpl.
    rewrite (cat_parameter_Ok "Sigma" _ _ (Hsigma ltac:(discriminate))).
    reflexivity.
  - unfold SpatialModelShell.from_gammacat.
    rewrite (cat_parameter_Ok "GLON" _ _ Hglon); simpl.
    rewrite (cat_parameter_Ok "GLAT" _ _ Hglat); simpl.
    rewrite (cat_parameter_Ok "Radius" _ _ (Hsigma ltac:(discriminate))).
    reflexivity.
Qed.

Lemma spatial_from_gammacat_dispatch_witness :
  SpatialModel.from_gammacat More.power_law_catalog
  = Ok (BaseModel.mk Point
          (ParameterList.mk [Param.make "GLON" (PyFloat 184.5) "deg";
                             Param.make "GLAT" (PyFloat (-5.75)) "deg"] None))
  /\ SpatialModel.from_gammacat Sample.shell_source
     = Ok (BaseModel.mk Shell
             (ParameterList.mk [Param.make "GLON" (PyFloat 266.25) "deg";
                                Param.make "GLAT" (PyFloat (-1.25)) "deg";
                                Param.make "Radius" (PyFloat 0.3) "deg";
                                Param.make "Width" (PyInt 0) "deg"] None)).
Proof.
  split.
  - apply (@spatial_from_gammacat_dispatch More.power_law_catalog Point
             (mkQuantity 184.5 "deg") (mkQuantity (-5.75) "deg") (mkQuantity 0 ""));
      try reflexivity.
    intros Hpoint; now elim Hpoint.
  - apply (@spatial_from_gammacat_dispatch Sample.shell_source Shell
             (mkQuantity 266.25 "deg") (mkQuantity (-1.25) "deg")
             (mkQuantity 0.3 "deg")); reflexivity.
Defined.

(** X8.  The failures of [SpatialModel.from_gammacat]: a source without
    [morph_type] gives [KeyError('morph_type')]; a [morph_type] other
    than point, gauss and shell gives the [UnknownModelError] whose
    message ends with the text of the source, not with the morphology,
    whether or not the source has a position; a known [morph_type]
    without [glon] gives [KeyError('glon')]. *)
Theorem spatial_from_gammacat_failures (source : catalog_source) :
  (dict_get "morph_type" (data source) = None ->
   SpatialModel.from_gammacat source = Err (KeyError "morph_type"))
  /\ (forall morph,
         dict_get "morph_type" (data source) = Some (CatStr morph) ->
         (forall cls, morph <> morph_type_of cls) ->
         SpatialModel.from_gammacat source
         = Err (UnknownModelError ("Unknown spatial model: " ++ source_str source)))
  /\ (forall cls,
         dict_get "morph_type" (data source) = Some (CatStr (morph_type_of cls)) ->
         dict_get "glon" (data source) = None ->
         SpatialModel.from_gammacat source = Err (KeyError "glon")).
Proof.
  split; [| split].
  - intros Hmorph. unfold SpatialModel.from_gammacat, cat_equals.
    now rewrite Hmorph.
  - intros morph Hmorph Hother.
    unfold SpatialModel.from_gammacat, cat_equals. rewrite Hmorph; simpl.
    destruct (String.eqb_spec morph "point") as [Heq |];
      [now elim (Hother Point) |].
    destruct (String.eqb_spec morph "gauss") as [Heq |];
      [now elim (Hother Gauss) |].
    destruct (String.eqb_spec morph "shell") as [Heq |];
      [now elim (Hother Shell) |].
    reflexivity.
  - intros cls Hmorph Hglon.
    unfold SpatialModel.from_gammacat, cat_equals. rewrite Hmorph.
    destruct cls; simpl;
      unfold SpatialModelPoint.from_gammacat, SpatialModelGauss.from_gammacat,
        SpatialModelShell.from_gammacat, cat_parameter, cat_quantity;
      now rewrite Hglon.
Qed.

Lemma spatial_from_gammacat_failures_witness :
  SpatialModel.from_gammacat More.ring_source
  = Err (UnknownModelError "Unknown spatial model: SNR ring")
  /\ SpatialModel.from_gammacat (mk_source [("morph_type", CatStr "gauss")] None "G1")
     = Err (KeyError "glon")
  /\ SpatialModel.from_gammacat (mk_source [] None "G2")
     = Err (KeyError "morph_type").
Proof.
  split; [| split].
  - apply (proj1 (proj2 (spatial_from_gammacat_failures More.ring_source)) "ring").
    + reflexivity.
    + intros cls; destruct cls; discriminate.
  - apply (proj2 (proj2 (spatial_from_gammacat_failures
                           (mk_source [("morph_type", CatStr "gauss")] None "G1")))
             Gauss); reflexivity.
  - apply (proj1 (spatial_from_gammacat_failures (mk_source [] None "G2"))).
    reflexivity.
Defined.

Lemma getitem_In `{PyText} (plist : ParameterList.t) (name : string) (par : Param.t) :
  ParameterList.getitem plist name = Ok par ->
  In par (ParameterList.parameters plist) /\ Param.name par = name.
Proof.
  unfold ParameterList.getitem. intros Hpar.
  destruct (ParameterList.first_named name (ParameterList.parameters plist))
    as [p |] eqn:Hfirst; [| discriminate Hpar].
  injection Hpar as ->.
  apply first_named_Some in Hfirst.
  destruct Hfirst as (before & after & Heq & Hname & _).
  split; [| exact Hname]. rewrite Heq. apply in_or_app. right. now left.
Qed.

Lemma getitem_absent `{PyText} (plist : ParameterList.t) (name : string) :
  Forall (fun q => Param.name q <> name) (ParameterList.parameters plist) ->
  ParameterList.getitem plist name
  = Err (IndexError ("Parameter " ++ name ++ " not found for : "
                     ++ ParameterList.str plist)).
Proof.
  intros Habsent. apply first_named_None in Habsent.
  unfold ParameterList.getitem. now rewrite Habsent.
Qed.

(** X9.  From the catalog to the XML model of a power law: when
    [to_dict()] names PowerLaw and its parameters read, with [amplitude],
    [index] and [reference] among them, [SpectralModel.from_gammacat]
    returns a [SpectralModelPowerLaw] whose parameters are Prefactor,
    Index, Scale; the three catalog values are floats, whatever the
    catalog held, and Index is the IEEE negation of the catalog index. *)
Theorem spectral_from_gammacat_power_law `{PyText} (source : catalog_source)
    (d : spectral_dict) (plist : ParameterList.t)
    (amplitude index reference : Param.t) :
  spectral_model_to_dict source = Some d ->
  sd_name d = "PowerLaw" ->
  ParameterList.from_list_of_dict_gammacat (sd_parameters d) = Ok plist ->
  ParameterList.getitem plist "amplitude" = Ok amplitude ->
  ParameterList.getitem plist "index" = Ok index ->
  ParameterList.getitem plist "reference" = Ok reference ->
  exists fa fi fr,
    Param.value amplitude = PyFloat fa
    /\ Param.value index = PyFloat fi
    /\ Param.value reference = PyFloat fr
    /\ SpectralModel.from_gammacat source
       = Ok (BaseModel.mk PowerLaw
               (ParameterList.mk
                  [Param.make "Prefactor" (PyFloat fa) (Param.unit amplitude);
                   Param.make "Index" (PyFloat (- fi)) (Param.unit index);
                   Param.make "Scale" (PyFloat fr) (Param.unit reference)]
                  None)).
Proof.
  intros Hd Hname Hplist Ha Hi Hr.
  pose proof (from_list_of_dict_gammacat_floats _ Hplist) as Hfloats.
  rewrite Forall_forall in Hfloats.
  destruct (Hfloats _ (proj1 (getitem_In _ _ Ha))) as (fa & Hfa).
  destruct (Hfloats _ (proj1 (getitem_In _ _ Hi))) as (fi & Hfi).
  destruct (Hfloats _ (proj1 (getitem_In _ _ Hr))) as (fr & Hfr).
  exists fa, fi, fr. repeat split; try assumption.
  unfold SpectralModel.from_gammacat. rewrite Hd, Hplist; simpl. rewrite Hname; simpl.
  unfold SpectralModelPowerLaw.from_plist. rewrite Ha, Hi, Hr; simpl.
  now rewrite Hfa, Hfi, Hfr.
Qed.

Lemma spectral_from_gammacat_power_law_witness :
  SpectralModel.from_gammacat More.power_law_catalog
  = Ok (BaseModel.mk PowerLaw
          (ParameterList.mk
             [Param.make "Prefactor" (PyFloat 0.5) "cm-2 s-1 TeV-1";
              Param.make "Index" (PyFloat (-2.5)) "";
              Param.make "Scale" (PyFloat 1) "TeV"] None)).
Proof.
  pose (d := mk_spectral_dict "PowerLaw"
               [Param.mk_gammacat "index" (SStr "2.5") "";
                Param.mk_gammacat "amplitude" (SStr "0.5") "cm-2 s-1 TeV-1";
                Param.mk_gammacat "reference" (SNum (PyInt 1)) "TeV"]
               "{'name': 'PowerLaw', ...}").
  pose (plist := ParameterList.init
                   [Param.make "index" (PyFloat 2.5) "";
                    Param.make "amplitude" (PyFloat 0.5) "cm-2 s-1 TeV-1";
                    Param.make "reference" (PyFloat 1) "TeV"]).
  assert (Hplist : ParameterList.from_list_of_dict_gammacat (sd_parameters d) = Ok plist)
    by (vm_compute; reflexivity).
  destruct (@spectral_from_gammacat_power_law Reference.text More.power_law_catalog
              d plist
              (Param.make "amplitude" (PyFloat 0.5) "cm-2 s-1 TeV-1")
              (Param.make "index" (PyFloat 2.5) "")
              (Param.make "reference" (PyFloat 1) "TeV")
              eq_refl eq_refl Hplist eq_refl eq_refl eq_refl)
    as (fa & fi & fr & Hfa & Hfi & Hfr & Hmodel).
  injection Hfa as <-. injection Hfi as <-. injection Hfr as <-. exact Hmodel.
Defined.

(** X10.  The failures of [SpectralModel.from_gammacat]: a source whose
    [to_dict()] raises [ValueError] gives [NoDataAvailableError]; since
    the parameters are read before the name is looked at, a value that
    [float] does not read fails the call with that error whatever the
    name is; with parameters that read and a name other than PowerLaw,
    PowerLaw2 and ExponentialCutoffPowerLaw the call fails with the
    [UnknownModelError] that ends with the text of the dict. *)
Theorem spectral_from_gammacat_failures `{PyText} (source : catalog_source) :
  (spectral_model_to_dict source = None ->
   SpectralModel.from_gammacat source = Err NoDataAvailableError)
  /\ (forall d before bad after e,
         spectral_model_to_dict source = Some d ->
         sd_parameters d = (before ++ bad :: after)%list ->
         Forall (fun entry => exists f, py_float (Param.gc_val entry) = Ok f) before ->
         py_float (Param.gc_val bad) = Err e ->
         SpectralModel.from_gammacat source = Err e)
  /\ (forall d plist,
         spectral_model_to_dict source = Some d ->
         ParameterList.from_list_of_dict_gammacat (sd_parameters d) = Ok plist ->
         sd_name d <> "PowerLaw" ->
         sd_name d <> "PowerLaw2" ->
         sd_name d <> "ExponentialCutoffPowerLaw" ->
         SpectralModel.from_gammacat source
         = Err (UnknownModelError ("Unknown spectral model: " ++ sd_str d))).
Proof.
  split; [| split].
  - intros Hd. unfold SpectralModel.from_gammacat. now rewrite Hd.
  - intros d before bad after e Hd Hpars Hbefore Hbad.
    unfold SpectralModel.from_gammacat, ParameterList.from_list_of_dict_gammacat.
    rewrite Hd, Hpars.
    rewrite (@mapM_first_error _ _ Param.from_dict_gammacat before bad after e).
    + reflexivity.
    + eapply Forall_impl; [| exact Hbefore].
      intros entry (f & Hf). unfold Param.from_dict_gammacat. rewrite Hf.
      eexists; reflexivity.
    + unfold Param.from_dict_gammacat. now rewrite Hbad.
  - intros d plist Hd Hplist Hpl Hpl2 Hecpl.
    unfold SpectralModel.from_gammacat. rewrite Hd, Hplist; simpl.
    apply String.eqb_neq in Hpl, Hpl2, Hecpl. now rewrite Hpl, Hpl2, Hecpl.
Qed.

Lemma spectral_from_gammacat_failures_witness :
  SpectralModel.from_gammacat More.ring_source = Err NoDataAvailableError
  /\ (exists msg,
        SpectralModel.from_gammacat More.unreadable_source = Err (ValueError msg))
  /\ SpectralModel.from_gammacat More.log_parabola_source
     = Err (UnknownModelError "Unknown spectral model: {'name': 'LogParabola'}").
Proof.
  split; [| split].
  - apply (proj1 (spectral_from_gammacat_failures More.ring_source)). reflexivity.
  - eexists.
    apply (proj1 (proj2 (spectral_from_gammacat_failures More.unreadable_source))
             More.unreadable
             [Param.mk_gammacat "alpha" (SStr "2.5") ""]
             (Param.mk_gammacat "beta" (SStr "n/a") "") []).
    + reflexivity.
    + reflexivity.
    + repeat constructor. eexists. vm_compute. reflexivity.
    + vm_compute. reflexivity.
  - apply (proj2 (proj2 (spectral_from_gammacat_failures More.log_parabola_source))
             More.log_parabola
             (ParameterList.init [Param.make "alpha" (PyFloat 2.5) ""])).
    + reflexivity.
    + vm_compute. reflexivity.
    + discriminate.
    + discriminate.
    + discriminate.
Defined.

(** ** The from_plist constructors, further *)

(** X11.  [SpectralModelExpCutoff.from_plist] divides one by the value
    of [lambda_]: when that value is the integer zero or a float that
    compares equal to zero, of either sign, the call fails with
    [ZeroDivisionError], whether or not [reference] is in the list. *)
Theorem exp_cutoff_zero_lambda `{PyText} (plist : ParameterList.t)
    (amplitude index lambda : Param.t) :
  ParameterList.getitem plist "amplitude" = Ok amplitude ->
  ParameterList.getitem plist "index" = Ok index ->
  ParameterList.getitem plist "lambda_" = Ok lambda ->
  Param.value lambda = PyInt 0
  \/ (exists f, Param.value lambda = PyFloat f /\ (f =? 0)%float = true) ->
  SpectralModelExpCutoff.from_plist plist = Err ZeroDivisionError.
Proof.
  intros Ha Hi Hl Hzero.
  unfold SpectralModelExpCutoff.from_plist. rewrite Ha, Hi, Hl; simpl.
  destruct Hzero as [-> | (f & -> & Hf)]; simpl; [reflexivity |].
  now rewrite Hf.
Qed.

Lemma exp_cutoff_zero_lambda_witness :
  SpectralModelExpCutoff.from_plist More.zero_lambda_list = Err ZeroDivisionError.
Proof.
  apply (@exp_cutoff_zero_lambda Reference.text More.zero_lambda_list
           (Param.make "amplitude" (PyFloat 0.5) "cm-2 s-1 TeV-1")
           (Param.make "index" (PyFloat 2.5) "")
           (Param.make "lambda_" (PyFloat (-0)) "TeV-1"));
    try reflexivity.
  right. exists (-0)%float. split; reflexivity.
Defined.

(** X12.  Whatever list it is given, a model [from_plist] returns has
    the class it was asked for, the parameter names of that class in
    their fixed order, no covariance, and parameters without bounds that
    are not frozen: bounds, frozen flags, the covariance and any further
    parameters of the catalog list are left behind. *)
Theorem from_plist_canonical `{PyText} (cls : spectral_class)
    (plist : ParameterList.t) (m : BaseModel.t spectral_class) :
  from_plist_of cls plist = Ok m ->
  BaseModel.class m = cls
  /\ map Param.name (BaseModel.plist m) = canonical_names cls
  /\ ParameterList.covariance (BaseModel.parameters m) = None
  /\ Forall at_defaults (BaseModel.plist m).
Proof.
  intros Hm.
  destruct cls; simpl in Hm;
    unfold SpectralModelPowerLaw.from_plist, SpectralModelPowerLaw2.from_plist,
      SpectralModelExpCutoff.from_plist in Hm;
    repeat (apply bind_Ok in Hm; destruct Hm as (? & _ & Hm));
    injection Hm as <-;
    repeat split; repeat constructor.
Qed.

Lemma from_plist_canonical_witness :
  exists m,
    SpectralModelPowerLaw.from_plist More.bounded_list = Ok m
    /\ BaseModel.class m = PowerLaw
    /\ map Param.name (BaseModel.plist m) = ["Prefactor"; "Index"; "Scale"]
    /\ ParameterList.covariance (BaseModel.parameters m) = None
    /\ Forall at_defaults (BaseModel.plist m).
Proof.
  eexists. split; [vm_compute; reflexivity |].
  apply (@from_plist_canonical Reference.text PowerLaw More.bounded_list).
  vm_compute. reflexivity.
Defined.

(** X13.  [from_plist] asks for its catalog parameters in a fixed
    order, and the first one that is not in the list decides the failure:
    the [IndexError] of [__getitem__] for that name.  (For the
    exponential cutoff this holds up to [lambda_]; past it the division
    comes first.) *)
Theorem from_plist_first_missing `{PyText} (cls : spectral_class)
    (plist : ParameterList.t) (before : list string) (missing : string)
    (after : list string) :
  required cls = (before ++ missing :: after)%list ->
  (cls = ExpCutoff -> missing <> "reference") ->
  Forall (fun name => exists par, ParameterList.getitem plist name = Ok par) before ->
  Forall (fun q => Param.name q <> missing) (ParameterList.parameters plist) ->
  from_plist_of cls plist
  = Err (IndexError ("Parameter " ++ missing ++ " not found for : "
                     ++ ParameterList.str plist)).
Proof.
  intros Hreq Hecpl Hbefore Hmissing.
  pose proof (getitem_absent plist Hmissing) as Habsent.
  destruct cls; simpl in Hreq |- *;
    unfold SpectralModelPowerLaw.from_plist, SpectralModelPowerLaw2.from_plist,
      SpectralModelExpCutoff.from_plist;
    repeat match goal with
      | Hb : Forall _ (_ :: _) |- _ =>
          let par := fresh "par" in
          let Hpar := fresh "Hpar" in
          inversion Hb as [| ? ? (par & Hpar) ?]; subst; clear Hb
      | Hr : (_ :: _) = (?b ++ _ :: _)%list |- _ =>
          destruct b; simpl in Hr; injection Hr as ? Hr; subst
      | Hr : [] = (?b ++ _ :: _)%list |- _ =>
          destruct b; discriminate Hr
      end;
    repeat match goal with
      | Hpar : ParameterList.getitem _ _ = Ok _ |- _ => rewrite Hpar; clear Hpar; simpl
      end;
    try (rewrite Habsent; reflexivity).
  now elim (Hecpl eq_refl).
Qed.

Lemma from_plist_first_missing_witness :
  SpectralModelPowerLaw2.from_plist More.plain_list
  = Err (IndexError ("Parameter emin not found for : "
                     ++ ParameterList.str More.plain_list)).
Proof.
  apply (@from_plist_first_missing Reference.text PowerLaw2 More.plain_list
           ["amplitude"; "index"] "emin" ["emax"]).
  - reflexivity.
  - discriminate.
  - repeat constructor; eexists; reflexivity.
  - repeat constructor; discriminate.
Defined.

(** ** Errors and correlated values of a ParameterList *)

Lemma mapM_ext_in {A B} (f g : A -> result B) (l : list A) :
  (forall a, In a l -> f a = g a) -> mapM f l = mapM g l.
Proof.
  induction l as [| a l IH]; intros Hfg; simpl; [reflexivity |].
  rewrite (Hfg a (or_introl eq_refl)), IH; [reflexivity |].
  intros a' Ha'. apply Hfg. now right.
Qed.

(** X14.  [set_parameter_errors] reads the mapping only under the names
    of the parameters: two mappings that agree on those names give the
    same outcome, so an entry under any other name is ignored without a
    word. *)
Theorem set_parameter_errors_only_named `{Astropy} (pl : ParameterList.t)
    (errors errors' : dict Quantity) :
  (forall par, In par (ParameterList.parameters pl) ->
               dict_get (Param.name par) errors = dict_get (Param.name par) errors') ->
  ParameterList.set_parameter_errors pl errors
  = ParameterList.set_parameter_errors pl errors'.
Proof.
  intros Hagree. unfold ParameterList.set_parameter_errors.
  rewrite (mapM_ext_in (ParameterList.error_value errors)
                       (ParameterList.error_value errors')); [reflexivity |].
  intros par Hpar. unfold ParameterList.error_value, dict_get_default.
  now rewrite (Hagree par Hpar).
Qed.

Lemma set_parameter_errors_only_named_witness :
  ParameterList.set_parameter_errors
    Sample.amplitude_index
    [("norm", mkQuantity 3 "TeV"); ("amplitude", mkQuantity 1 "cm-2 s-1")]
  = ParameterList.set_parameter_errors Sample.amplitude_index Sample.amplitude_error.
Proof.
  apply (@set_parameter_errors_only_named Reference.units Sample.amplitude_index).
  intros par [<- | [<- | []]]; reflexivity.
Defined.

(** X15.  The default [0 * u.Unit(par.unit)] is built before the mapping
    is asked, so a parameter whose unit astropy does not know fails
    [set_parameter_errors] with the exception of [u.Unit], also when the
    mapping holds an error for that parameter; the parameters before it
    must have gone through. *)
Theorem set_parameter_errors_unknown_unit `{Astropy} (pl : ParameterList.t)
    (errors : dict Quantity) (before : list Param.t) (par : Param.t)
    (after : list Param.t) (e : pyerr) :
  ParameterList.parameters pl = (before ++ par :: after)%list ->
  Forall (fun p => exists v, ParameterList.error_value errors p = Ok v) before ->
  Unit (Param.unit par) = Err e ->
  ParameterList.set_parameter_errors pl errors = Err e.
Proof.
  intros Hpars Hbefore Hunit. unfold ParameterList.set_parameter_errors.
  rewrite Hpars.
  rewrite (@mapM_first_error _ _ (ParameterList.error_value errors)
             before par after e Hbefore); [reflexivity |].
  unfold ParameterList.error_value. now rewrite Hunit.
Qed.

Lemma set_parameter_errors_unknown_unit_witness :
  @ParameterList.set_parameter_errors More.strict_units
    (ParameterList.init [Param.make "index" (PyFloat 2.5) "";
                         Param.make "norm" (PyFloat 1) "?"])
    [("norm", mkQuantity 0.5 "TeV")]
  = Err (ValueError "'?' did not parse as unit").
Proof.
  apply (@set_parameter_errors_unknown_unit More.strict_units
           (ParameterList.init [Param.make "index" (PyFloat 2.5) "";
                                Param.make "norm" (PyFloat 1) "?"])
           [("norm", mkQuantity 0.5 "TeV")]
           [Param.make "index" (PyFloat 2.5) ""] (Param.make "norm" (PyFloat 1) "?") []).
  - reflexivity.
  - repeat constructor. eexists. reflexivity.
  - reflexivity.
Defined.

Lemma dict_get_set_same {V} (k : string) (v : V) (d : dict V) :
  dict_get k (dict_set k v d) = Some v.
Proof.
  induction d as [| [k' v'] d IH]; simpl.
  - now rewrite String.eqb_refl.
  - destruct (String.eqb k k') eqn:Hk; simpl; now rewrite Hk.
Qed.

Lemma dict_get_set_other {V} (k k' : string) (v : V) (d : dict V) :
  k <> k' -> dict_get k (dict_set k' v d) = dict_get k d.
Proof.
  intros Hk. induction d as [| [k0 v0] d IH]; simpl.
  - apply String.eqb_neq in Hk. now rewrite Hk.
  - destruct (String.eqb_spec k' k0) as [-> | Hk0]; simpl.
    + apply String.eqb_neq in Hk. now rewrite Hk.
    + now rewrite IH.
Qed.

(** The loop that fills the dict of [_ufloats]. *)
Lemma fill_lookup {V} (l : list (Param.t * V)) (acc : dict V) (k : string) :
  NoDup (map (fun pu => Param.name (fst pu)) l) ->
  (forall p u, In (p, u) l -> Param.name p = k ->
     dict_get k (fold_left (fun upars pu => dict_set (Param.name (fst pu)) (snd pu) upars)
                           l acc) = Some u)
  /\ (~ In k (map (fun pu => Param.name (fst pu)) l) ->
      dict_get k (fold_left (fun upars pu => dict_set (Param.name (fst pu)) (snd pu) upars)
                            l acc) = dict_get k acc).
Proof.
  revert acc. induction l as [| [p0 u0] l IH]; intros acc Hnodup; simpl.
  - split; [intros p u [] | reflexivity].
  - inversion Hnodup as [| ? ? Hfresh Hnodup']; subst.
    destruct (IH (dict_set (Param.name p0) u0 acc) Hnodup') as (IHin & IHout).
    split.
    + intros p u [Heq | Hin] Hname.
      * injection Heq as -> ->. subst k.
        rewrite IHout; [apply dict_get_set_same | exact Hfresh].
      * now apply (IHin p u).
    + intros Hout. rewrite IHout.
      * apply dict_get_set_other. intros Heq. apply Hout. now left.
      * intros Hin. apply Hout. now right.
Qed.

Lemma combine_names_NoDup {V} (ps : list Param.t) (us : list V) :
  NoDup (map Param.name ps) ->
  NoDup (map (fun pu => Param.name (fst pu)) (combine ps us)).
Proof.
  revert us. induction ps as [| p ps IH]; intros us Hnodup; simpl; [constructor |].
  destruct us as [| u us]; simpl; [constructor |].
  inversion Hnodup as [| ? ? Hfresh Hnodup']; subst.
  constructor; [| now apply IH].
  intros Hin. apply Hfresh. apply in_map_iff in Hin.
  destruct Hin as ([p' u'] & Hname & Hin). simpl in Hname.
  apply in_combine_l in Hin. apply in_map_iff. now exists p'.
Qed.

Lemma nth_error_combine_In {A B} (l : list A) (l' : list B) (i : nat) (a : A) (b : B) :
  nth_error l i = Some a -> nth_error l' i = Some b -> In (a, b) (combine l l').
Proof.
  revert l' i. induction l as [| x l IH]; intros l' i Ha Hb.
  - destruct i; discriminate Ha.
  - destruct l' as [| y l']; [destruct i; discriminate Hb |].
    destruct i as [| i]; simpl in *.
    + injection Ha as ->. injection Hb as ->. now left.
    + right. now apply (IH l' i).
Qed.

(** X16.  When [correlated_values] returns, [_ufloats] is the dict from
    each parameter name to the correlated value at the position of that
    parameter, the names being distinct; and an exception of
    [correlated_values] other than [LinAlgError] leaves [_ufloats] as it
    is, not as the "Covariance matrix not set." error. *)
Theorem ufloats_lookup `{Uncertainties} (pl : ParameterList.t) :
  (forall uarray,
      correlated_values (map Param.value (ParameterList.parameters pl))
                        (ParameterList.covariance pl) = Ok uarray ->
      NoDup (map Param.name (ParameterList.parameters pl)) ->
      exists upars,
        ParameterList._ufloats pl = Ok upars
        /\ forall i par u,
            nth_error (ParameterList.parameters pl) i = Some par ->
            nth_error uarray i = Some u ->
            dict_get (Param.name par) upars = Some u)
  /\ (forall e,
         correlated_values (map Param.value (ParameterList.parameters pl))
                           (ParameterList.covariance pl) = Err e ->
         e <> LinAlgError ->
         ParameterList._ufloats pl = Err e).
Proof.
  split.
  - intros uarray Hvalues Hnodup. unfold ParameterList._ufloats. rewrite Hvalues.
    eexists; split; [reflexivity |].
    intros i par u Hpar Hu.
    apply (proj1 (fill_lookup _ [] (Param.name par)
                    (combine_names_NoDup _ uarray Hnodup)) par u);
      [| reflexivity].
    now apply (nth_error_combine_In _ _ i).
  - intros e Hraise Hother. unfold ParameterList._ufloats. rewrite Hraise.
    destruct e; try reflexivity. now elim Hother.
Qed.

Lemma ufloats_lookup_witness :
  (exists upars,
      ParameterList._ufloats More.bounded_list = Ok upars
      /\ dict_get "index" upars = Some (PyFloat 2.5, 0.5%float))
  /\ ParameterList._ufloats Sample.gauss_list
     = Err (ValueError "Input must be 1- or 2-d.").
Proof.
  destruct (@ufloats_lookup Reference.uncertainties More.bounded_list) as (Hok & _).
  destruct (@ufloats_lookup Reference.uncertainties Sample.gauss_list) as (_ & Herr).
  split.
  - destruct (Hok [(PyFloat 0.5, 1%float); (PyFloat 2.5, 0.5%float);
                   (PyFloat 1, 0%float)]) as (upars & Hupars & Hlookup).
    + reflexivity.
    + repeat constructor; simpl; intuition discriminate.
    + exists upars. split; [exact Hupars |].
      apply (Hlookup 1%nat (Param.mk "index" (PyFloat 2.5) "" (Some (PyFloat 1))
                                     (Some (PyFloat 5)) true)); reflexivity.
  - apply Herr; [reflexivity | discriminate].
Defined.

(** ** Writing XML *)

Lemma parameter_to_xml_triple `{PyText} (p p' : Param.t) :
  triple p = triple p' -> Param.to_xml p = Param.to_xml p'.
Proof.
  unfold triple, Param.to_xml. intros Heq. injection Heq as -> -> ->. reflexivity.
Qed.

Lemma parameter_list_to_xml_triples `{PyText} (pl pl' : ParameterList.t) :
  map triple (ParameterList.parameters pl) = map triple (ParameterList.parameters pl') ->
  ParameterList.to_xml pl = ParameterList.to_xml pl'.
Proof.
  unfold ParameterList.to_xml. intros Heq. f_equal.
  generalize dependent (ParameterList.parameters pl').
  induction (ParameterList.parameters pl) as [| p l IH]; intros l' Heq;
    destruct l' as [| p' l']; try discriminate Heq; [reflexivity |].
  simpl in Heq |- *.
  injection Heq as Hname Hvalue Hunit Hl.
  assert (Hp : triple p = triple p') by (unfold triple; congruence).
  now rewrite (@parameter_to_xml_triple _ _ _ Hp), (IH l' Hl).
Qed.

(** X17.  The XML of a source carries its name, its type, the classes
    of its two models and the name, value, unit triples of their
    parameters, and nothing else: two sources that agree on these are
    written alike, whatever bounds, frozen flags and covariances they
    have. *)
Theorem source_to_xml_only_triples `{PyText} (s s' : SourceModel.t) :
  SourceModel.source_name s = SourceModel.source_name s' ->
  SourceModel.source_type s = SourceModel.source_type s' ->
  BaseModel.class (SourceModel.spectral_model s)
  = BaseModel.class (SourceModel.spectral_model s') ->
  BaseModel.class (SourceModel.spatial_model s)
  = BaseModel.class (SourceModel.spatial_model s') ->
  map triple (BaseModel.plist (SourceModel.spectral_model s))
  = map triple (BaseModel.plist (SourceModel.spectral_model s')) ->
  map triple (BaseModel.plist (SourceModel.spatial_model s))
  = map triple (BaseModel.plist (SourceModel.spatial_model s')) ->
  SourceModel.to_xml s = SourceModel.to_xml s'.
Proof.
  intros Hname Htype Hspectral Hspatial Hspectral_pars Hspatial_pars.
  unfold SourceModel.to_xml, SpectralModel.to_xml, SpatialModel.to_xml.
  rewrite Hname, Htype, Hspectral, Hspatial.
  rewrite (@parameter_list_to_xml_triples _ _ _ Hspectral_pars).
  rewrite (@parameter_list_to_xml_triples _ _ _ Hspatial_pars).
  reflexivity.
Qed.

Lemma source_to_xml_only_triples_witness :
  SourceModel.to_xml More.bounded_source = SourceModel.to_xml More.plain_source.
Proof.
  apply (@source_to_xml_only_triples Reference.text
           More.bounded_source More.plain_source); reflexivity.
Defined.

(** X18.  What [Parameter.to_xml] writes and [Parameter.from_dict_xml]
    reads.  The text is a [parameter] element with the attributes name,
    value, unit in this order; and a dict with these attributes, whatever
    children it has, reads as the parameter of the same name and unit
    whose value is the float read from the written value, without bounds
    and not frozen. *)
Theorem parameter_written_then_read `{PyText} (p : Param.t) (f : float) :
  float_of_str (str_of_num (Param.value p)) = Some f ->
  Param.to_xml p
  = "        <parameter" ++ String.concat "" (map attr_text (written_attrs p)) ++ "/>"
  /\ forall children,
      Param.from_dict_xml (XDict (written_attrs p) children)
      = Ok (Param.mk (Param.name p) (PyFloat f) (Param.unit p) None None false).
Proof.
  intros Hf. split.
  - unfold Param.to_xml, written_attrs, attr_text, dq; simpl.
    repeat (rewrite ?append_assoc; simpl; f_equal).
  - intros children. unfold Param.from_dict_xml, written_attrs, xattr, py_float; simpl.
    now rewrite Hf.
Qed.

Lemma parameter_written_then_read_witness :
  Param.from_dict_xml
    (XDict [("name", "index"); ("value", "2.5"); ("unit", "")] [])
  = Ok (Param.mk "index" (PyFloat 2.5) "" None None false).
Proof.
  apply (proj2 (@parameter_written_then_read Reference.text
                  (Param.mk "index" (PyFloat 2.5) "" (Some (PyFloat 1))
                            (Some (PyFloat 5)) true) 2.5%float
                  ltac:(vm_compute; reflexivity))).
Defined.

Lemma mapM_written_attrs `{PyText} (pars : list Param.t) (values : list float) :
  Forall2 (fun p f => float_of_str (str_of_num (Param.value p)) = Some f) pars values ->
  mapM Param.from_dict_xml (map (fun p => XDict (written_attrs p) []) pars)
  = Ok (map read_back (combine pars values)).
Proof.
  induction 1 as [| p f pars values Hf _ IH]; simpl; [reflexivity |].
  rewrite Hf; simpl. rewrite IH; reflexivity.
Qed.

(** X19.  A spectral model through its XML attributes.  A dict whose
    ['@type'] is the [xml_type] of the class of [m] and whose
    ['parameter'] list holds, for each parameter of [m] in order, the
    attributes [to_xml] writes for it, reads as a model of the same class
    with the same names and units in the same order; each value is the
    float read from its written text, and the covariance, the bounds and
    the frozen flags of [m] are not there any more. *)
Theorem spectral_written_then_read `{PyText} (m : SpectralModel.t)
    (values : list float) (attrs : dict string) (children : dict xval) :
  Forall2 (fun p f => float_of_str (str_of_num (Param.value p)) = Some f)
          (BaseModel.plist m) values ->
  dict_get "type" attrs = Some (SpectralModel.xml_type (BaseModel.class m)) ->
  dict_get "parameter" children
  = Some (XList (map (fun p => XDict (written_attrs p) []) (BaseModel.plist m))) ->
  SpectralModel.from_xml_dict (XDict attrs children)
  = Ok (BaseModel.mk (BaseModel.class m)
          (ParameterList.mk (map read_back (combine (BaseModel.plist m) values)) None)).
Proof.
  intros Hvalues Htype Hpars.
  unfold SpectralModel.from_xml_dict, xattr, xchild. rewrite Htype, Hpars; simpl.
  unfold ParameterList.from_list_of_dict_xml; simpl.
  rewrite (mapM_written_attrs Hvalues); simpl.
  destruct (BaseModel.class m); reflexivity.
Qed.

Lemma spectral_written_then_read_witness :
  SpectralModel.from_xml_dict
    (XDict [("type", "PowerLaw")]
           [("parameter",
             XList [XDict [("name", "amplitude"); ("value", "0.5");
                           ("unit", "cm-2 s-1 TeV-1")] [];
                    XDict [("name", "index"); ("value", "2.5"); ("unit", "")] [];
                    XDict [("name", "reference"); ("value", "1.0"); ("unit", "TeV")] []])])
  = Ok (BaseModel.mk PowerLaw More.plain_list).
Proof.
  apply (@spectral_written_then_read Reference.text
           (BaseModel.mk PowerLaw More.bounded_list) [0.5; 2.5; 1]%float
           [("type", "PowerLaw")]).
  - repeat constructor; vm_compute; reflexivity.
  - reflexivity.
  - vm_compute. reflexivity.
Defined.

(** ** Reading sources and libraries *)

(** X20.  A source read from a dict has the ['@name'] and the ['@type']
    of the dict as they stand, the spectral model read from its
    ['spectrum'], and a spatial model without parameters and without
    covariance.  The type is not compared with the class of the spatial
    model: a PointSource with a shell is read as such. *)
Theorem source_from_xml_dict_fields `{PyText} (data : xval) (s : SourceModel.t) :
  SourceModel.from_xml_dict data = Ok s ->
  xattr "name" data = Ok (SourceModel.source_name s)
  /\ xattr "type" data = Ok (SourceModel.source_type s)
  /\ (exists spectrum,
         xchild "spectrum" data = Ok spectrum
         /\ SpectralModel.from_xml_dict spectrum = Ok (SourceModel.spectral_model s))
  /\ BaseModel.parameters (SourceModel.spatial_model s) = ParameterList.mk [] None.
Proof.
  unfold SourceModel.from_xml_dict. intros Hs.
  apply bind_Ok in Hs; destruct Hs as (name & Hname & Hs).
  apply bind_Ok in Hs; destruct Hs as (type & Htype & Hs).
  apply bind_Ok in Hs; destruct Hs as (spectrum & Hspectrum & Hs).
  apply bind_Ok in Hs; destruct Hs as (spectral & Hspectral & Hs).
  apply bind_Ok in Hs; destruct Hs as (spatial & Hspatial & Hs).
  injection Hs as <-. simpl. repeat split; try assumption.
  - now exists spectrum.
  - unfold SourceModel.spatial_from_xml_dict in Hspatial.
    assert (Hempty : forall entry',
               SpatialModel.from_xml_dict entry' = Ok spatial ->
               BaseModel.parameters spatial = ParameterList.mk [] None).
    { intros entry' Hentry. unfold SpatialModel.from_xml_dict in Hentry.
      apply bind_Ok in Hentry; destruct Hentry as (tag & _ & Hentry).
      repeat match type of Hentry with
        | (if ?c then _ else _) = _ => destruct c
        end;
        try discriminate Hentry; injection Hentry as <-; reflexivity. }
    destruct data as [| | | attrs children]; try discriminate Hspatial.
    destruct (dict_mem "radialModel" children).
    + apply bind_Ok in Hspatial; destruct Hspatial as (radial & _ & Hspatial).
      exact (Hempty _ Hspatial).
    + destruct (dict_mem "spatialModel" children); [| discriminate Hspatial].
      apply bind_Ok in Hspatial; destruct Hspatial as (entry' & _ & Hspatial).
      exact (Hempty _ Hspatial).
Qed.

Lemma source_from_xml_dict_fields_witness :
  exists s,
    SourceModel.from_xml_dict (Sample.source_dict Sample.both_spatial) = Ok s
    /\ SourceModel.source_type s = "PointSource"
    /\ BaseModel.class (SourceModel.spatial_model s) = Shell
    /\ BaseModel.parameters (SourceModel.spatial_model s) = ParameterList.mk [] None.
Proof.
  assert (Hread : exists s,
             SourceModel.from_xml_dict (Sample.source_dict Sample.both_spatial) = Ok s
             /\ SourceModel.source_type s = "PointSource"
             /\ BaseModel.class (SourceModel.spatial_model s) = Shell).
  { eexists. split; [vm_compute; reflexivity | split; reflexivity]. }
  destruct Hread as (s & Hs & Htype & Hclass).
  exists s. repeat split; try assumption.
  exact (proj2 (proj2 (proj2 (@source_from_xml_dict_fields Reference.text _ _ Hs)))).
Defined.

Lemma source_from_xml_dict_not_a_dict `{PyText} (s : string) :
  SourceModel.from_xml_dict (XStr s) = Err TypeError.
Proof. reflexivity. Qed.

(** X21.  [SourceLibrary.from_list_of_dict] on a list succeeds exactly
    when every entry reads as a source, and then holds those sources in
    the order of the entries; an entry that fails after entries that read
    fails the call with its own error.  On a single dict, as xmltodict
    returns for a library of one [source] element, it walks the keys and
    fails with [TypeError] on the first, a string subscripted with
    ['@name']. *)
Theorem from_list_of_dict_outcomes `{PyText} :
  (forall items lib,
      SourceLibrary.from_list_of_dict (XList items) = Ok lib <->
      Forall2 (fun d s => SourceModel.from_xml_dict d = Ok s)
              items (SourceLibrary.source_list lib))
  /\ (forall before bad after e,
         Forall (fun d => exists s, SourceModel.from_xml_dict d = Ok s) before ->
         SourceModel.from_xml_dict bad = Err e ->
         SourceLibrary.from_list_of_dict (XList (before ++ bad :: after)) = Err e)
  /\ (forall attrs children,
         attrs <> [] \/ children <> [] ->
         SourceLibrary.from_list_of_dict (XDict attrs children) = Err TypeError).
Proof.
  split; [| split].
  - intros items lib. unfold SourceLibrary.from_list_of_dict; simpl. split.
    + intros Hlib.
      apply bind_Ok in Hlib; destruct Hlib as (sources & Hsources & Hlib).
      injection Hlib as <-. simpl. now apply mapM_Forall2.
    + intros Hsources. apply mapM_Forall2 in Hsources. rewrite Hsources; simpl.
      now destruct lib.
  - intros before bad after e Hbefore Hbad.
    unfold SourceLibrary.from_list_of_dict; simpl.
    now rewrite (mapM_first_error _ _ after Hbefore Hbad).
  - intros attrs children Hsome. unfold SourceLibrary.from_list_of_dict; simpl.
    destruct attrs as [| kv attrs]; simpl; [| reflexivity].
    destruct children as [| kv children]; simpl; [| reflexivity].
    destruct Hsome as [Hnil | Hnil]; now elim Hnil.
Qed.

Lemma from_list_of_dict_outcomes_witness :
  SourceLibrary.from_list_of_dict (Sample.source_dict Sample.only_spatial)
  = Err TypeError
  /\ SourceLibrary.from_list_of_dict
       (XList [Sample.source_dict Sample.only_spatial; Sample.bare_source_dict])
     = Err (KeyError "spectrum").
Proof.
  destruct (@from_list_of_dict_outcomes Reference.text) as (_ & Hfirst & Hdict).
  split.
  - apply Hdict. left. discriminate.
  - apply (Hfirst [Sample.source_dict Sample.only_spatial] Sample.bare_source_dict []).
    + repeat constructor. eexists. vm_compute. reflexivity.
    + reflexivity.
Defined.

(** ** The text of a ParameterList *)

Lemma concat_cons (x : string) (l : list string) :
  String.concat "" (x :: l) = x ++ String.concat "" l.
Proof. destruct l; simpl; [now rewrite append_empty_r | reflexivity]. Qed.

Lemma str_loop `{PyText} (pars : list Param.t) (ss : string) :
  fold_left (fun ss par => ss ++ nl ++ Param.str par) pars ss
  = ss ++ String.concat "" (map (fun par => nl ++ Param.str par) pars).
Proof.
  revert ss. induction pars as [| par pars IH]; intros ss.
  - simpl. now rewrite append_empty_r.
  - cbn [fold_left map]. rewrite IH, concat_cons. now rewrite !append_assoc.
Qed.

Lemma concat_contains (part : string) (l : list string) :
  In part l -> contains part (String.concat "" l).
Proof.
  induction l as [| x l IH]; intros Hin; [destruct Hin |].
  rewrite concat_cons. destruct Hin as [-> | Hin].
  - exists "", (String.concat "" l). reflexivity.
  - destruct (IH Hin) as (before & after & Heq).
    exists (x ++ before), after. rewrite Heq. now rewrite append_assoc.
Qed.

(** X22.  The text [__str__] gives for a ParameterList starts with the
    class name, holds the text of every parameter of the list on a line
    of its own, and ends with a blank line and the covariance; this is
    the text the [IndexError] of [__getitem__] carries. *)
Theorem parameter_list_str_parts `{PyText} (pl : ParameterList.t) :
  (exists rest, ParameterList.str pl = "ParameterList" ++ rest)
  /\ (forall par, In par (ParameterList.parameters pl) ->
                  contains (nl ++ Param.str par) (ParameterList.str pl))
  /\ (exists lines,
         ParameterList.str pl
         = lines ++ nl ++ nl ++ "Covariance: "
           ++ str_of_covariance (ParameterList.covariance pl)).
Proof.
  unfold ParameterList.str. rewrite str_loop. split; [| split].
  - eexists. rewrite append_assoc. reflexivity.
  - intros par Hpar.
    destruct (concat_contains (nl ++ Param.str par)
                (map (fun par => nl ++ Param.str par) (ParameterList.parameters pl)))
      as (before & after & Heq).
    { apply in_map_iff. now exists par. }
    rewrite Heq.
    exists ("ParameterList" ++ before),
           (after ++ nl ++ nl ++ "Covariance: "
            ++ str_of_covariance (ParameterList.covariance pl)).
    now rewrite !append_assoc.
  - eexists. reflexivity.
Qed.

Lemma parameter_list_str_parts_witness :
  contains (nl ++ Param.str Sample.sigma) (ParameterList.str Sample.gauss_list).
Proof.
  apply (proj1 (proj2 (@parameter_list_str_parts Reference.text Sample.gauss_list))).
  right. right. now left.
Defined.
